(** * stream_breathing_amp_multi: a breathing belt bridged from BLE to LSL

    A shallow embedding of [stream_breathing_amp_multi.py].  The script
    connects to one BLE peripheral with bleak, subscribes to one
    characteristic, decodes every notification into one or two unsigned
    32-bit big-endian integers, and pushes them on a 2-channel LSL outlet.

    Python integers are [Z]; a [bytes]/[bytearray] value is a [list byte];
    a method of [BBeltBleak] is a computation in the monad [M], which
    threads the object ([self]), collects the observable effects of a run
    (console lines, transport calls, stream calls) and may end with a
    raised exception. *)

From Stdlib Require Import ZArith List String Strings.Byte QArith Lia Bool DecimalString.
Import ListNotations.
Open Scope Z_scope.

(** ** The Python runtime pieces the script uses *)

Module Py.

Definition bytes := list byte.

(** The two exception classes the script tells apart: everything below
    [Exception], which [except Exception] catches, and
    [KeyboardInterrupt], which derives from [BaseException] only. *)
Inductive exn : Type :=
| Exception (msg : string)
| KeyboardInterrupt.

Definition isinstance_Exception (e : exn) : bool :=
  match e with
  | Exception _ => true
  | KeyboardInterrupt => false
  end.

Definition isinstance_KeyboardInterrupt (e : exn) : bool :=
  match e with
  | Exception _ => false
  | KeyboardInterrupt => true
  end.

(** [str(e)]. *)
Definition str_exn (e : exn) : string :=
  match e with
  | Exception msg => msg
  | KeyboardInterrupt => EmptyString
  end.

Inductive result (A : Type) : Type :=
| Val (a : A)
| Exc (e : exn).
Arguments Val {A} a.
Arguments Exc {A} e.

(** [len(data)]. *)
Definition len (data : bytes) : Z := Z.of_nat (List.length data).

(** [data[lo:hi]] for literal bounds [0 <= lo <= hi]: slicing clamps to
    the length of the buffer and never raises. *)
Definition slice (data : bytes) (lo hi : nat) : bytes :=
  firstn (hi - lo) (skipn lo data).

Definition byte_val (b : byte) : Z := Z.of_N (Byte.to_N b).

(** The value of a buffer read as one big-endian unsigned integer. *)
Definition int_from_bytes_big (bs : bytes) : Z :=
  fold_left (fun acc b => acc * 256 + byte_val b) bs 0.

(** [struct.unpack('>L', buf)[0]]: the format is exactly four bytes
    wide; any other buffer size raises [struct.error]. *)
Definition struct_unpack_BE_L (buf : bytes) : result Z :=
  if (List.length buf =? 4)%nat then Val (int_from_bytes_big buf)
  else Exc (Exception "unpack requires a buffer of 4 bytes").

(** [str(n)] for an integer. *)
Definition str (n : Z) : string := NilZero.string_of_int (Z.to_int n).

Definition str_bool (b : bool) : string :=
  if b then "True"%string else "False"%string.

End Py.
Export Py.

(** ** pylsl: stream declarations and outlets *)

Module Lsl.

(** [StreamInfo(name, type, channel_count, nominal_srate,
    channel_format, source_id)]. *)
Record StreamInfo : Type := mkStreamInfo {
  name : string;
  type : string;
  channel_count : Z;
  nominal_srate : Z;
  channel_format : string;
  source_id : string
}.

Record StreamOutlet : Type := mkStreamOutlet { info : StreamInfo }.

End Lsl.

(** ** Observable effects *)

Inductive event : Type :=
| Print (line : string)                 (* print(...) *)
| PrintRate (hz : Q)                    (* print("Samples incoming at: %s Hz" % hz) *)
| ClientConnect (address : string)      (* BleakClient.connect *)
| ClientStartNotify (char : string)     (* BleakClient.start_notify *)
| ClientStopNotify (char : string)      (* BleakClient.stop_notify *)
| ClientDisconnect (address : string)   (* BleakClient.disconnect *)
| HandlerFailed (e : exn)               (* an exception left the notification handler *)
| NewStreamInfo (i : Lsl.StreamInfo)    (* StreamInfo(...) *)
| NewStreamOutlet (i : Lsl.StreamInfo)  (* StreamOutlet(info) *)
| PushSample (o : Lsl.StreamOutlet) (x : list Z)  (* outlet.push_sample(x) *)
| DelOutlet (o : Lsl.StreamOutlet).     (* del outlet *)

Definition trace := list event.

(** ** The effect monad: state, output, exceptions *)

Section Monad.

Context {S : Type}.

Definition M (A : Type) : Type := S -> result A * S * trace.

Definition ret {A} (a : A) : M A := fun s => (Val a, s, []).

Definition bind {A B} (m : M A) (k : A -> M B) : M B :=
  fun s =>
    match m s with
    | (Val a, s1, t1) =>
        match k a s1 with
        | (r, s2, t2) => (r, s2, t1 ++ t2)
        end
    | (Exc e, s1, t1) => (Exc e, s1, t1)
    end.

Definition get : M S := fun s => (Val s, s, []).
Definition put (s' : S) : M unit := fun _ => (Val tt, s', []).
Definition emit (ev : event) : M unit := fun s => (Val tt, s, [ev]).
Definition raise {A} (e : exn) : M A := fun s => (Exc e, s, []).

(** [r] as a computation: the value, or the exception raised. *)
Definition lift {A} (r : result A) : M A := fun s => (r, s, []).

(** [try: body / except <class> as e: handler e], the class given by
    its [isinstance] test. *)
Definition try_except {A} (body : M A) (cls : exn -> bool)
    (handler : exn -> M A) : M A :=
  fun s =>
    match body s with
    | (Val a, s1, t1) => (Val a, s1, t1)
    | (Exc e, s1, t1) =>
        if cls e then
          match handler e s1 with
          | (r, s2, t2) => (r, s2, t1 ++ t2)
          end
        else (Exc e, s1, t1)
    end.

(** [try: body / finally: cleanup]: the cleanup always runs; an
    exception of the body is re-raised after it unless the cleanup
    raises one of its own. *)
Definition try_finally {A} (body : M A) (cleanup : M unit) : M A :=
  fun s =>
    match body s with
    | (r, s1, t1) =>
        match cleanup s1 with
        | (Val _, s2, t2) => (r, s2, t1 ++ t2)
        | (Exc e, s2, t2) => (Exc e, s2, t1 ++ t2)
        end
    end.

End Monad.

Arguments M : clear implicits.

Declare Scope py_scope.
Delimit Scope py_scope with py.
Notation "x <- m ;; k" := (bind m (fun x => k))
  (at level 61, m at next level, right associativity) : py_scope.
Notation "m ;; k" := (bind m (fun _ => k))
  (at level 61, right associativity) : py_scope.
Open Scope py_scope.

Definition print {S} (line : string) : M S unit := emit (Print line).

(** Projections of a finished run. *)
Definition outcome_of {S A} (r : result A * S * trace) : result A := fst (fst r).
Definition state_of {S A} (r : result A * S * trace) : S := snd (fst r).
Definition trace_of {S A} (r : result A * S * trace) : trace := snd r.

(** ** bleak: the BLE client and the device behind it *)

Module Bleak.

(** What a transport call does when awaited: it completes, or it
    raises an error (an instance of [Exception]) with a message. *)
Inductive outcome : Type :=
| Done
| Fails (msg : string).

(** The device and radio as the session meets them: the outcome of each
    of the four transport calls the script makes. *)
Record Device : Type := mkDevice {
  on_connect : outcome;
  on_start_notify : outcome;
  on_stop_notify : outcome;
  on_disconnect : outcome
}.

Record BleakClient : Type := mkBleakClient {
  address : string;
  is_connected : bool
}.

(** [BleakClient(addr)]: a fresh client is not connected. *)
Definition new (addr : string) : BleakClient :=
  {| address := addr; is_connected := false |}.

End Bleak.

(** What reaches the session while it streams: a notification of the
    subscribed characteristic, or the end of one 5-second sleep. *)
Inductive input : Type :=
| Notification (sender : Z) (data : bytes)
| Tick.

(** Where the interrupt signal finds the session: while [connect] is
    awaited, while [start_notify] is awaited, or in the wait of the loop,
    after the given inputs have arrived. *)
Inductive arrival : Type :=
| InConnect
| InStartNotify
| InWait (inputs : list input).

Definition during_connect (w : arrival) : bool :=
  match w with InConnect => true | _ => false end.

Definition during_start_notify (w : arrival) : bool :=
  match w with InStartNotify => true | _ => false end.

Definition arrived_before (w : arrival) : list input :=
  match w with InWait inputs => inputs | _ => [] end.

(** The parsed command line ([args]). *)
Record Args : Type := mkArgs {
  mac_address : string;
  name : string;
  type : string;
  verbose : bool
}.

(** A registered callback: it receives the list of samples, may produce
    effects of its own and may raise. *)
Definition callback_t : Type := list Z -> result unit * trace.

(** [samples_in/5.] *)
Definition rate_hz (samples_in : Z) : Q := (inject_Z samples_in / 5)%Q.

(** ** class BBeltBleak *)

Module BBeltBleak.

Record t : Type := mk {
  bamp : Z;
  bIR : Z;
  addr : string;
  char_id : string;
  samples_in : Z;
  callback : option callback_t;
  client : Bleak.BleakClient
}.

Definition set_bamp (v : Z) (self : t) : t :=
  {| bamp := v; bIR := bIR self; addr := addr self; char_id := char_id self;
     samples_in := samples_in self; callback := callback self;
     client := client self |}.

Definition set_bIR (v : Z) (self : t) : t :=
  {| bamp := bamp self; bIR := v; addr := addr self; char_id := char_id self;
     samples_in := samples_in self; callback := callback self;
     client := client self |}.

Definition set_samples_in (v : Z) (self : t) : t :=
  {| bamp := bamp self; bIR := bIR self; addr := addr self;
     char_id := char_id self; samples_in := v; callback := callback self;
     client := client self |}.

Definition set_is_connected (b : bool) (self : t) : t :=
  {| bamp := bamp self; bIR := bIR self; addr := addr self;
     char_id := char_id self; samples_in := samples_in self;
     callback := callback self;
     client := {| Bleak.address := Bleak.address (client self);
                  Bleak.is_connected := b |} |}.

Definition modify (f : t -> t) : M t unit := fun self => (Val tt, f self, []).

(** Calling the registered callback: its effects join the trace, its
    exception (if any) propagates. *)
Definition call (cb : callback_t) (x : list Z) : M t unit :=
  fun self => let (r, out) := cb x in (r, self, out).

(** [__init__(self, addr, char_id, verbose=False, callback=None)];
    [verbose] is accepted and not stored. *)
Definition __init__ (addr : string) (char_id : string) (verbose : bool)
    (callback : option callback_t) : t :=
  {| bamp := 0;
     bIR := 0;
     addr := addr;
     char_id := char_id;
     samples_in := 0;
     callback := callback;
     client := Bleak.new addr |}.

Section Methods.

(** The [args] that the script binds at module level. *)
Variable args : Args.
(** The device the client talks to. *)
Variable dev : Bleak.Device.

(** Reading the module-level name [args]: the script binds it under
    [__main__] before it builds the object; in a module that only
    imports the class the name is unbound and the read raises
    [NameError]. *)
Definition global_args (globals : option Args) : M t Args :=
  match globals with
  | Some a => ret a
  | None => raise (Exception "name 'args' is not defined")
  end.

(** [_ble_handler(self, sender, data)], in a module whose global [args]
    is [globals]. *)
Definition _ble_handler_with (globals : option Args) (sender : Z)
    (data : bytes) : M t unit :=
  if 4 <=? len data then
    v <- lift (struct_unpack_BE_L (slice data 0 4)) ;;
    modify (set_bamp v) ;;
    (if 8 <=? len data then
       w <- lift (struct_unpack_BE_L (slice data 4 8)) ;;
       modify (set_bIR w)
     else ret tt) ;;
    modify (fun self => set_samples_in (samples_in self + 1) self) ;;
    a <- global_args globals ;;
    self <- get ;;
    (if verbose a then
       print ("Breathing Amp: " ++ str (bamp self)
              ++ " raw IR: " ++ str (bIR self))%string
     else ret tt) ;;
    match callback self with
    | Some cb => call cb [bamp self; bIR self]
    | None => ret tt
    end
  else ret tt.

(** The handler as the script runs it, with [args] bound. *)
Definition _ble_handler (sender : Z) (data : bytes) : M t unit :=
  _ble_handler_with (Some args) sender data.

(** The awaited transport calls. *)
Definition await (o : Bleak.outcome) (on_done : t -> t) : M t unit :=
  match o with
  | Bleak.Done => modify on_done
  | Bleak.Fails msg => raise (Exception msg)
  end.

(** A transport call during which the interrupt signal may arrive: the
    call has been made, and [KeyboardInterrupt] is raised in the await. *)
Definition client_connect_at (interrupted : bool) : M t unit :=
  self <- get ;;
  emit (ClientConnect (Bleak.address (client self))) ;;
  if interrupted then raise KeyboardInterrupt
  else await (Bleak.on_connect dev) (set_is_connected true).

Definition client_connect : M t unit := client_connect_at false.

Definition client_start_notify_at (interrupted : bool) (char : string)
  : M t unit :=
  emit (ClientStartNotify char) ;;
  if interrupted then raise KeyboardInterrupt
  else await (Bleak.on_start_notify dev) (fun self => self).

Definition client_start_notify (char : string) : M t unit :=
  client_start_notify_at false char.

Definition client_stop_notify (char : string) : M t unit :=
  emit (ClientStopNotify char) ;;
  await (Bleak.on_stop_notify dev) (fun self => self).

Definition client_disconnect : M t unit :=
  self <- get ;;
  emit (ClientDisconnect (Bleak.address (client self))) ;;
  await (Bleak.on_disconnect dev) (set_is_connected false).

(** [connect(self)]; [interrupted] tells whether the signal arrives
    while [self.client.connect()] is awaited. *)
Definition connect_at (interrupted : bool) : M t unit :=
  self <- get ;;
  if negb (Bleak.is_connected (client self)) then
    print ("Connecting to " ++ addr self)%string ;;
    try_except
      (client_connect_at interrupted ;;
       self' <- get ;;
       print ("Connected: "
              ++ str_bool (Bleak.is_connected (client self')))%string)
      isinstance_Exception
      (fun e => print (str_exn e))
  else ret tt.

(** [connect(self)] with no signal on the way. *)
Definition connect : M t unit := connect_at false.

(** One notification delivered by the transport: the handler runs to
    completion inside the transport's dispatch, so an exception
    leaving it surfaces there and not in the waiting loop. *)
Definition deliver (sender : Z) (data : bytes) : M t unit :=
  try_except (_ble_handler sender data) (fun _ => true)
    (fun e => emit (HandlerFailed e)).

(** The [while True] loop of [_main], driven by what arrives while it
    waits; when nothing more arrives the interrupt signal is
    delivered and [KeyboardInterrupt] is raised in the wait. *)
Fixpoint loop (inputs : list input) : M t unit :=
  match inputs with
  | [] => raise KeyboardInterrupt
  | Notification sender data :: rest =>
      deliver sender data ;;
      loop rest
  | Tick :: rest =>
      self <- get ;;
      emit (PrintRate (rate_hz (samples_in self))) ;;
      modify (set_samples_in 0) ;;
      loop rest
  end.

(** [_main(self)], the interrupt signal arriving at [w]. *)
Definition _main_at (w : arrival) : M t unit :=
  connect_at (during_connect w) ;;
  print "start notify" ;;
  try_except
    (self <- get ;;
     client_start_notify_at (during_start_notify w) (char_id self) ;;
     print "notify started" ;;
     print "launch the loop" ;;
     loop (arrived_before w))
    isinstance_Exception
    (fun e => print (str_exn e)).


(** [launch(self)]: [asyncio.run(self._main())]. *)
Definition launch_at (w : arrival) : M t unit := _main_at w.


(** [_terminate(self)]. *)
Definition _terminate : M t unit :=
  self <- get ;;
  client_stop_notify (char_id self) ;;
  client_disconnect.

(** [terminate(self)]. *)
Definition terminate : M t unit :=
  try_except _terminate isinstance_Exception
    (fun e => print (str_exn e)).

End Methods.

End BBeltBleak.

(** ** The script ([__main__]) *)

Definition CHARACTERISTIC_UUID_HR : string := "00002a37-0000-1000-8000-00805f9b34fb".
Definition ADDRESS : string := "A0:9E:1A:A8:B4:2F".
Definition SAMPLINGRATE : Z := 12.

(** The defaults of the argument parser. *)
Definition default_args : Args :=
  {| mac_address := "FB:88:11:1E:90:F3";
     name := "ullo_bb";
     type := "breathing_amp";
     verbose := false |}.

Definition char_id : string := "0000fed1-0000-1000-8000-00805f9b34fb".

(** ['%s_%s_%s' % (args.name, args.type, args.mac_address)]. *)
Definition source_id_of (args : Args) : string :=
  (name args ++ "_" ++ type args ++ "_" ++ mac_address args)%string.

Definition info_bamp (args : Args) : Lsl.StreamInfo :=
  Lsl.mkStreamInfo (name args) (type args) 2 SAMPLINGRATE "float32"
    (source_id_of args).

Definition outlet_bamp (args : Args) : Lsl.StreamOutlet :=
  Lsl.mkStreamOutlet (info_bamp args).

(** [stream(data)]: [outlet_bamp.push_sample(data)]. *)
Definition stream (args : Args) : callback_t :=
  fun data => (Val tt, [PushSample (outlet_bamp args) data]).

Definition bbelt (args : Args) : BBeltBleak.t :=
  BBeltBleak.__init__ (mac_address args) char_id (verbose args)
    (Some (stream args)).

(** The whole run of the script for a command line, a device and the
    point at which the interrupt signal arrives. *)
Definition main_at (args : Args) (dev : Bleak.Device) (w : arrival)
  : result unit * BBeltBleak.t * trace :=
  (emit (NewStreamInfo (info_bamp args)) ;;
   emit (NewStreamOutlet (info_bamp args)) ;;
   try_finally
     (try_except (BBeltBleak.launch_at args dev w)
        isinstance_KeyboardInterrupt
        (fun _ => print "Catching Ctrl-C or SIGTERM, bye!"))
     (BBeltBleak.terminate dev ;;
      emit (DelOutlet (outlet_bamp args)) ;;
      print "terminated"))
    (bbelt args).

(** The whole run of the script for a command line, a device and what
    arrives while the session streams, up to the interrupt. *)
Definition main (args : Args) (dev : Bleak.Device) (inputs : list input)
  : result unit * BBeltBleak.t * trace :=
  main_at args dev (InWait inputs).

(** ** Reference definitions, written from the words of the specification *)

(** The big-endian unsigned 32-bit integer held in the four bytes of
    [data] that start at offset [off]. *)
Definition be_uint32_at (data : bytes) (off : nat) : Z :=
  byte_val (nth off data x00) * 2 ^ 24
  + byte_val (nth (off + 1) data x00) * 2 ^ 16
  + byte_val (nth (off + 2) data x00) * 2 ^ 8
  + byte_val (nth (off + 3) data x00).

(** The payloads among what arrived, oldest first. *)
Fixpoint payloads (history : list input) : list bytes :=
  match history with
  | [] => []
  | Notification _ data :: rest => data :: payloads rest
  | Tick :: rest => payloads rest
  end.

Definition carries_secondary (data : bytes) : bool := 8 <=? len data.

(** The last secondary value observed in a previous payload of length at
    least 8, or 0 if none has been observed. *)
Definition last_secondary (history : list input) : Z :=
  match find carries_secondary (rev (payloads history)) with
  | Some data => be_uint32_at data 4
  | None => 0
  end.

Definition decodable (data : bytes) : bool := 4 <=? len data.

(** How many payloads of a window are long enough to be decoded. *)
Definition count_decodable (window : list bytes) : Z :=
  Z.of_nat (List.length (filter decodable window)).

(** The windows closed by the ticks of a session, oldest first: each is
    the list of payloads that arrived since the previous tick (or since
    the start); [cur] holds what arrived since the last tick so far. *)
Fixpoint closed_windows (cur : list bytes) (inputs : list input)
  : list (list bytes) :=
  match inputs with
  | [] => []
  | Notification _ data :: rest => closed_windows (cur ++ [data]) rest
  | Tick :: rest => cur :: closed_windows [] rest
  end.

(** The window still open when the inputs end. *)
Fixpoint open_window (cur : list bytes) (inputs : list input) : list bytes :=
  match inputs with
  | [] => cur
  | Notification _ data :: rest => open_window (cur ++ [data]) rest
  | Tick :: rest => open_window [] rest
  end.

(** ** Reading a trace *)

(** The rates printed by the diagnostic ticks, in order. *)
Fixpoint reported_rates (out : trace) : list Q :=
  match out with
  | [] => []
  | PrintRate hz :: rest => hz :: reported_rates rest
  | _ :: rest => reported_rates rest
  end.

(** The arguments of the [push_sample] calls, in order. *)
Fixpoint pushed_samples (out : trace) : list (list Z) :=
  match out with
  | [] => []
  | PushSample _ x :: rest => x :: pushed_samples rest
  | _ :: rest => pushed_samples rest
  end.

Definition is_stop_notify (ev : event) : bool :=
  match ev with ClientStopNotify _ => true | _ => false end.

Definition is_disconnect (ev : event) : bool :=
  match ev with ClientDisconnect _ => true | _ => false end.

Definition is_handler_failed (ev : event) : bool :=
  match ev with HandlerFailed _ => true | _ => false end.

Definition count (p : event -> bool) (out : trace) : nat :=
  List.length (filter p out).

(** The verbose console line of the handler. *)
Definition verbose_line (args : Args) (p s : Z) : trace :=
  if verbose args then
    [Print ("Breathing Amp: " ++ str p ++ " raw IR: " ++ str s)%string]
  else [].

(** The object after a decoded payload with primary [p] and secondary [s]. *)
Definition decoded (self : BBeltBleak.t) (p s : Z) : BBeltBleak.t :=
  BBeltBleak.set_samples_in (BBeltBleak.samples_in self + 1)
    (BBeltBleak.set_bIR s (BBeltBleak.set_bamp p self)).

(** The secondary value a payload leaves in an object that held [prev]. *)
Definition secondary_after (prev : Z) (data : bytes) : Z :=
  if 8 <=? len data then be_uint32_at data 4 else prev.

(** ** The script's run, piece by piece *)

(** The stream declarations made during a run, in order. *)
Fixpoint stream_infos (out : trace) : list Lsl.StreamInfo :=
  match out with
  | [] => []
  | NewStreamInfo i :: rest => i :: stream_infos rest
  | _ :: rest => stream_infos rest
  end.

(** The events a streaming session can produce: console lines and
    pushed samples. *)
Definition streaming_event (ev : event) : bool :=
  match ev with
  | Print _ | PrintRate _ | PushSample _ _ => true
  | _ => false
  end.

(** What the transport records when the handler lets an exception out. *)
Definition failure_of (h : result unit * BBeltBleak.t * trace) : trace :=
  match outcome_of h with
  | Val _ => []
  | Exc e => [HandlerFailed e]
  end.

(** The console and transport effects of [connect] on the script's fresh
    object. *)
Definition connect_out (args : Args) (dev : Bleak.Device) : trace :=
  Print ("Connecting to " ++ mac_address args)
  :: ClientConnect (mac_address args)
  :: match Bleak.on_connect dev with
     | Bleak.Done => [Print "Connected: True"]
     | Bleak.Fails msg => [Print msg]
     end.

(** The script's object once [connect] has returned. *)
Definition connected (args : Args) (dev : Bleak.Device) : BBeltBleak.t :=
  match Bleak.on_connect dev with
  | Bleak.Done => BBeltBleak.set_is_connected true (bbelt args)
  | Bleak.Fails _ => bbelt args
  end.

(** The object and the effects of [launch] after the subscription call:
    the streaming session ended by the interrupt, or the logged
    subscription error. *)
Definition after_subscribe (args : Args) (dev : Bleak.Device)
    (inputs : list input) : BBeltBleak.t * trace :=
  match Bleak.on_start_notify dev with
  | Bleak.Done =>
      let l := BBeltBleak.loop args inputs (connected args dev) in
      (state_of l,
       Print "notify started" :: Print "launch the loop"
       :: trace_of l ++ [Print "Catching Ctrl-C or SIGTERM, bye!"])
  | Bleak.Fails msg => (connected args dev, [Print msg])
  end.

(** The script's object after the session consumed [pre] while
    streaming. *)
Definition session_after (args : Args) (dev : Bleak.Device)
    (pre : list input) : BBeltBleak.t :=
  state_of (BBeltBleak.loop args pre (connected args dev)).

(** On a trace: unsubscribe and disconnect are each invoked exactly
    once. *)
Definition teardown_each_once (out : trace) : Prop :=
  count is_stop_notify out = 1%nat /\ count is_disconnect out = 1%nat.

(** On a trace: the script caught the interrupt. *)
Definition interrupt_caught (out : trace) : Prop :=
  In (Print "Catching Ctrl-C or SIGTERM, bye!") out.

(** ** Whole sessions *)

Definition uint32 (n : Z) : Prop := 0 <= n < 2 ^ 32.

(** The samples a sequence of payloads gives rise to, in order, when the
    secondary value stored beforehand is [prev]: one pair for each payload
    of at least 4 bytes, the secondary carried along from payload to
    payload. *)
Fixpoint samples_from (prev : Z) (ps : list bytes) : list (list Z) :=
  match ps with
  | [] => []
  | data :: rest =>
      if 4 <=? len data then
        let s := if 8 <=? len data then be_uint32_at data 4 else prev in
        [be_uint32_at data 0; s] :: samples_from s rest
      else samples_from prev rest
  end.

Definition sum_rates (rates : list Q) : Q := fold_right Qplus 0%Q rates.

Definition is_connect (ev : event) : bool :=
  match ev with ClientConnect _ => true | _ => false end.

Definition is_start_notify (ev : event) : bool :=
  match ev with ClientStartNotify _ => true | _ => false end.

Definition is_push (ev : event) : bool :=
  match ev with PushSample _ _ => true | _ => false end.

(** A transport call made on behalf of the script's object names the
    address given on the command line or the raw-data characteristic. *)
Definition well_addressed (args : Args) (ev : event) : bool :=
  match ev with
  | ClientConnect a | ClientDisconnect a => String.eqb a (mac_address args)
  | ClientStartNotify c | ClientStopNotify c => String.eqb c char_id
  | _ => true
  end.

(** The object and the effects of a run from after the outlet is made
    up to the teardown, by the point at which the interrupt arrives. *)
Definition before_teardown (args : Args) (dev : Bleak.Device) (w : arrival)
  : BBeltBleak.t * trace :=
  match w with
  | InConnect =>
      (bbelt args,
       [Print ("Connecting to " ++ mac_address args);
        ClientConnect (mac_address args);
        Print "Catching Ctrl-C or SIGTERM, bye!"])
  | InStartNotify =>
      (connected args dev,
       connect_out args dev
       ++ [Print "start notify"; ClientStartNotify char_id;
           Print "Catching Ctrl-C or SIGTERM, bye!"])
  | InWait inputs =>
      (fst (after_subscribe args dev inputs),
       connect_out args dev
       ++ Print "start notify" :: ClientStartNotify char_id
       :: snd (after_subscribe args dev inputs))
  end.

(** * Properties *)

(** ** Decoding four bytes *)

Lemma byte_val_range (b : byte) : 0 <= byte_val b < 256.
Proof.
  unfold byte_val.
  pose proof (Byte.to_N_bounded b) as Hb.
  lia.
Qed.

Lemma unpack_slice_0 (data : bytes) :
  4 <= len data ->
  struct_unpack_BE_L (slice data 0 4) = Val (be_uint32_at data 0).
Proof.
  unfold len. intros H.
  destruct data as [|b0 [|b1 [|b2 [|b3 rest]]]]; simpl in H; try lia.
  unfold struct_unpack_BE_L, slice, be_uint32_at, int_from_bytes_big.
  simpl. f_equal. lia.
Qed.

Lemma unpack_slice_4 (data : bytes) :
  8 <= len data ->
  struct_unpack_BE_L (slice data 4 8) = Val (be_uint32_at data 4).
Proof.
  unfold len. intros H.
  destruct data as [|b0 [|b1 [|b2 [|b3 [|b4 [|b5 [|b6 [|b7 rest]]]]]]]];
    simpl in H; try lia.
  unfold struct_unpack_BE_L, slice, be_uint32_at, int_from_bytes_big.
  simpl. f_equal. lia.
Qed.

Lemma be_uint32_at_range (data : bytes) (off : nat) :
  0 <= be_uint32_at data off < 2 ^ 32.
Proof.
  unfold be_uint32_at.
  pose proof (byte_val_range (nth off data x00)).
  pose proof (byte_val_range (nth (off + 1) data x00)).
  pose proof (byte_val_range (nth (off + 2) data x00)).
  pose proof (byte_val_range (nth (off + 3) data x00)).
  lia.
Qed.

(** ** The notification handler, case by case *)

Section Handler.

Variable args : Args.

Lemma handler_short (sender : Z) (data : bytes) (self : BBeltBleak.t) :
  len data < 4 ->
  BBeltBleak._ble_handler args sender data self = (Val tt, self, []).
Proof.
  intros H. unfold BBeltBleak._ble_handler, BBeltBleak._ble_handler_with.
  destruct (Z.leb_spec 4 (len data)); [lia | reflexivity].
Qed.

Lemma handler_decodes (sender : Z) (data : bytes) (self : BBeltBleak.t) :
  4 <= len data ->
  BBeltBleak._ble_handler args sender data self =
  let p := be_uint32_at data 0 in
  let s := secondary_after (BBeltBleak.bIR self) data in
  match BBeltBleak.callback self with
  | Some cb =>
      (fst (cb [p; s]), decoded self p s, verbose_line args p s ++ snd (cb [p; s]))
  | None => (Val tt, decoded self p s, verbose_line args p s)
  end.
Proof.
  intros H.
  unfold BBeltBleak._ble_handler, BBeltBleak._ble_handler_with,
    BBeltBleak.global_args, secondary_after, verbose_line.
  destruct (Z.leb_spec 4 (len data)) as [_|]; [|lia].
  unfold bind at 1, lift. rewrite (unpack_slice_0 data H).
  destruct (Z.leb_spec 8 (len data)) as [H8|H8].
  - unfold bind, lift, BBeltBleak.modify, get, print, emit, ret,
      BBeltBleak.call.
    rewrite (unpack_slice_4 data H8). cbn.
    destruct (verbose args); cbn;
      destruct (BBeltBleak.callback self) as [cb|]; cbn;
      try destruct (cb _) as [r out]; reflexivity.
  - unfold bind, lift, BBeltBleak.modify, get, print, emit, ret,
      BBeltBleak.call. cbn.
    destruct (verbose args); cbn;
      destruct (BBeltBleak.callback self) as [cb|]; cbn;
      try destruct (cb _) as [r out]; reflexivity.
Qed.

(** Whatever the payload, the handler leaves address, characteristic,
    callback and client as they were. *)
Lemma handler_callback (sender : Z) (data : bytes) (self : BBeltBleak.t) :
  BBeltBleak.callback (state_of (BBeltBleak._ble_handler args sender data self))
  = BBeltBleak.callback self.
Proof.
  destruct (Z.lt_ge_cases (len data) 4) as [H|H].
  - rewrite handler_short by exact H. reflexivity.
  - rewrite handler_decodes by exact H. cbn.
    destruct (BBeltBleak.callback self) eqn:E; cbn; rewrite ?E; reflexivity.
Qed.

Lemma handler_bIR (sender : Z) (data : bytes) (self : BBeltBleak.t) :
  BBeltBleak.bIR (state_of (BBeltBleak._ble_handler args sender data self))
  = if decodable data then secondary_after (BBeltBleak.bIR self) data
    else BBeltBleak.bIR self.
Proof.
  unfold decodable.
  destruct (Z.leb_spec 4 (len data)) as [H|H].
  - rewrite handler_decodes by exact H. cbn.
    destruct (BBeltBleak.callback self); reflexivity.
  - rewrite handler_short by exact H. reflexivity.
Qed.

Lemma handler_samples_in (sender : Z) (data : bytes) (self : BBeltBleak.t) :
  BBeltBleak.samples_in
    (state_of (BBeltBleak._ble_handler args sender data self))
  = BBeltBleak.samples_in self + (if decodable data then 1 else 0).
Proof.
  unfold decodable.
  destruct (Z.leb_spec 4 (len data)) as [H|H].
  - rewrite handler_decodes by exact H. cbn.
    destruct (BBeltBleak.callback self); reflexivity.
  - rewrite handler_short by exact H. cbn. lia.
Qed.

End Handler.

(** ** The waiting loop, input by input *)

Lemma find_over_app {A} (f : A -> bool) (l l' : list A) :
  find f (l ++ l') = match find f l with
                     | Some x => Some x
                     | None => find f l'
                     end.
Proof.
  induction l as [|a l IH]; cbn; [reflexivity|].
  destruct (f a); [reflexivity | exact IH].
Qed.

Section Loop.

Variable args : Args.

Lemma loop_notification (sender : Z) (data : bytes) (rest : list input)
    (self : BBeltBleak.t) :
  BBeltBleak.loop args (Notification sender data :: rest) self =
  let h := BBeltBleak._ble_handler args sender data self in
  let r := BBeltBleak.loop args rest (state_of h) in
  (outcome_of r, state_of r, (trace_of h ++ failure_of h) ++ trace_of r).
Proof.
  cbn [BBeltBleak.loop].
  unfold bind, BBeltBleak.deliver, try_except, failure_of,
    outcome_of, state_of, trace_of, emit.
  destruct (BBeltBleak._ble_handler args sender data self) as [[o st] out].
  destruct o as [[]|e]; cbn;
    destruct (BBeltBleak.loop args rest st) as [[o' st'] out']; cbn;
    rewrite ?app_nil_r; reflexivity.
Qed.

Lemma loop_tick (rest : list input) (self : BBeltBleak.t) :
  BBeltBleak.loop args (Tick :: rest) self =
  let r := BBeltBleak.loop args rest (BBeltBleak.set_samples_in 0 self) in
  (outcome_of r, state_of r,
   PrintRate (rate_hz (BBeltBleak.samples_in self)) :: trace_of r).
Proof.
  cbn [BBeltBleak.loop].
  unfold bind, get, emit, BBeltBleak.modify, outcome_of, state_of, trace_of.
  destruct (BBeltBleak.loop args rest (BBeltBleak.set_samples_in 0 self))
    as [[o' st'] out'].
  reflexivity.
Qed.

(** The loop only ever ends by the interrupt. *)
Lemma loop_outcome (inputs : list input) (self : BBeltBleak.t) :
  outcome_of (BBeltBleak.loop args inputs self) = Exc KeyboardInterrupt.
Proof.
  revert self. induction inputs as [|[sender data|] rest IH]; intros self.
  - reflexivity.
  - rewrite loop_notification. cbn. apply IH.
  - rewrite loop_tick. cbn. apply IH.
Qed.

Lemma loop_callback (inputs : list input) (self : BBeltBleak.t) :
  BBeltBleak.callback (state_of (BBeltBleak.loop args inputs self))
  = BBeltBleak.callback self.
Proof.
  revert self. induction inputs as [|[sender data|] rest IH]; intros self.
  - reflexivity.
  - rewrite loop_notification. cbn. rewrite IH. apply handler_callback.
  - rewrite loop_tick. cbn. rewrite IH. reflexivity.
Qed.

(** The stored secondary value after a run of inputs: that of the last
    payload that carried one, else the value stored before. *)
Lemma loop_bIR (inputs : list input) (self : BBeltBleak.t) :
  BBeltBleak.bIR (state_of (BBeltBleak.loop args inputs self))
  = match find carries_secondary (rev (payloads inputs)) with
    | Some data => be_uint32_at data 4
    | None => BBeltBleak.bIR self
    end.
Proof.
  revert self. induction inputs as [|[sender data|] rest IH]; intros self.
  - reflexivity.
  - rewrite loop_notification. cbn [state_of fst snd payloads rev].
    rewrite IH, find_over_app.
    destruct (find carries_secondary (rev (payloads rest))); [reflexivity|].
    rewrite handler_bIR. cbn [find].
    unfold carries_secondary, decodable, secondary_after.
    destruct (Z.leb_spec 8 (len data)), (Z.leb_spec 4 (len data));
      try reflexivity; lia.
  - rewrite loop_tick. cbn [state_of fst snd payloads]. rewrite IH.
    reflexivity.
Qed.

Lemma count_decodable_snoc (cur : list bytes) (data : bytes) :
  count_decodable (cur ++ [data])
  = count_decodable cur + (if decodable data then 1 else 0).
Proof.
  unfold count_decodable. rewrite filter_app, length_app. cbn [filter].
  destruct (decodable data); cbn [List.length]; lia.
Qed.

(** The counter holds the number of decodable payloads of the open
    window. *)
Lemma loop_samples_in (inputs : list input) (cur : list bytes)
    (self : BBeltBleak.t) :
  BBeltBleak.samples_in self = count_decodable cur ->
  BBeltBleak.samples_in (state_of (BBeltBleak.loop args inputs self))
  = count_decodable (open_window cur inputs).
Proof.
  revert cur self.
  induction inputs as [|[sender data|] rest IH]; intros cur self Hc.
  - exact Hc.
  - rewrite loop_notification. cbn [state_of fst snd open_window].
    apply IH. rewrite handler_samples_in, count_decodable_snoc, Hc.
    reflexivity.
  - rewrite loop_tick. cbn [state_of fst snd open_window].
    apply IH. reflexivity.
Qed.

End Loop.

(** ** Traces of a session whose callback is the script's [stream] *)

Lemma reported_rates_app (out1 out2 : trace) :
  reported_rates (out1 ++ out2) = reported_rates out1 ++ reported_rates out2.
Proof.
  induction out1 as [|ev out1 IH]; [reflexivity|].
  destruct ev; cbn; rewrite IH; reflexivity.
Qed.

Lemma pushed_samples_app (out1 out2 : trace) :
  pushed_samples (out1 ++ out2) = pushed_samples out1 ++ pushed_samples out2.
Proof.
  induction out1 as [|ev out1 IH]; [reflexivity|].
  destruct ev; cbn; rewrite IH; reflexivity.
Qed.

Lemma count_app (p : event -> bool) (out1 out2 : trace) :
  count p (out1 ++ out2) = (count p out1 + count p out2)%nat.
Proof. unfold count. rewrite filter_app, length_app. reflexivity. Qed.

Lemma count_cons (p : event -> bool) (ev : event) (out : trace) :
  count p (ev :: out) = ((if p ev then 1 else 0) + count p out)%nat.
Proof. unfold count. cbn [filter]. destruct (p ev); reflexivity. Qed.

Section Script.

Variable args : Args.

Lemma handler_stream (sender : Z) (data : bytes) (self : BBeltBleak.t) :
  BBeltBleak.callback self = Some (stream args) ->
  BBeltBleak._ble_handler args sender data self =
  if decodable data then
    let p := be_uint32_at data 0 in
    let s := secondary_after (BBeltBleak.bIR self) data in
    (Val tt, decoded self p s,
     verbose_line args p s ++ [PushSample (outlet_bamp args) [p; s]])
  else (Val tt, self, []).
Proof.
  intros Hcb. unfold decodable.
  destruct (Z.leb_spec 4 (len data)) as [H|H].
  - rewrite handler_decodes by exact H. cbn. rewrite Hcb. reflexivity.
  - apply handler_short. exact H.
Qed.

Lemma loop_stream_events (inputs : list input) (self : BBeltBleak.t) :
  BBeltBleak.callback self = Some (stream args) ->
  forallb streaming_event (trace_of (BBeltBleak.loop args inputs self)) = true.
Proof.
  revert self. induction inputs as [|[sender data|] rest IH]; intros self Hcb.
  - reflexivity.
  - rewrite loop_notification. cbn [trace_of snd].
    rewrite forallb_app, IH, andb_true_r
      by (rewrite handler_callback; exact Hcb).
    rewrite handler_stream by exact Hcb.
    destruct (decodable data); [|reflexivity].
    unfold failure_of, verbose_line. cbn.
    destruct (verbose args); reflexivity.
  - rewrite loop_tick. cbn [trace_of snd forallb streaming_event].
    apply IH. exact Hcb.
Qed.

Lemma count_outside_stream (p : event -> bool) (out : trace) :
  (forall ev, streaming_event ev = true -> p ev = false) ->
  forallb streaming_event out = true ->
  count p out = 0%nat.
Proof.
  intros Hp. induction out as [|ev out IH]; [reflexivity|].
  cbn [forallb]. intros H. apply andb_prop in H. destruct H as [Hev Hout].
  rewrite count_cons, (Hp ev Hev), (IH Hout). reflexivity.
Qed.

(** The rates reported by the ticks are the numbers of decodable
    payloads of the closed windows, each divided by 5. *)
Lemma loop_reported_rates (inputs : list input) (cur : list bytes)
    (self : BBeltBleak.t) :
  BBeltBleak.callback self = Some (stream args) ->
  BBeltBleak.samples_in self = count_decodable cur ->
  reported_rates (trace_of (BBeltBleak.loop args inputs self))
  = map (fun w => (inject_Z (count_decodable w) / 5)%Q)
      (closed_windows cur inputs).
Proof.
  revert cur self.
  induction inputs as [|[sender data|] rest IH]; intros cur self Hcb Hc.
  - reflexivity.
  - rewrite loop_notification. cbn [trace_of snd closed_windows].
    rewrite reported_rates_app.
    rewrite (IH (cur ++ [data])).
    + rewrite handler_stream by exact Hcb.
      destruct (decodable data); [|reflexivity].
      unfold failure_of, verbose_line. cbn.
      destruct (verbose args); reflexivity.
    + rewrite handler_callback. exact Hcb.
    + rewrite handler_samples_in, count_decodable_snoc, Hc. reflexivity.
  - rewrite loop_tick. cbn [trace_of snd closed_windows reported_rates map].
    rewrite (IH []); [| exact Hcb | reflexivity].
    unfold rate_hz. rewrite Hc. reflexivity.
Qed.

(** One sample is pushed for each decodable payload, and none for the
    others. *)
Lemma loop_pushed_count (inputs : list input) (self : BBeltBleak.t) :
  BBeltBleak.callback self = Some (stream args) ->
  Z.of_nat (List.length
              (pushed_samples (trace_of (BBeltBleak.loop args inputs self))))
  = count_decodable (payloads inputs).
Proof.
  revert self. induction inputs as [|[sender data|] rest IH]; intros self Hcb.
  - reflexivity.
  - rewrite loop_notification. cbn [trace_of snd payloads].
    rewrite pushed_samples_app, length_app, Nat2Z.inj_add.
    rewrite IH by (rewrite handler_callback; exact Hcb).
    rewrite handler_stream by exact Hcb.
    unfold count_decodable at 2. cbn [filter].
    destruct (decodable data).
    + unfold failure_of, verbose_line, count_decodable.
      destruct (verbose args);
        cbn [outcome_of trace_of fst snd app pushed_samples List.length];
        lia.
    + reflexivity.
  - rewrite loop_tick. cbn [trace_of snd payloads pushed_samples].
    apply IH. exact Hcb.
Qed.

(** Every pushed sample has two channels. *)
Lemma loop_pushed_arity (inputs : list input) (self : BBeltBleak.t) :
  BBeltBleak.callback self = Some (stream args) ->
  Forall (fun x => List.length x = 2%nat)
    (pushed_samples (trace_of (BBeltBleak.loop args inputs self))).
Proof.
  revert self. induction inputs as [|[sender data|] rest IH]; intros self Hcb.
  - constructor.
  - rewrite loop_notification. cbn [trace_of snd].
    rewrite pushed_samples_app. apply Forall_app. split.
    + rewrite handler_stream by exact Hcb.
      destruct (decodable data); [|constructor].
      unfold failure_of, verbose_line. cbn.
      destruct (verbose args); cbn; repeat constructor.
    + apply IH. rewrite handler_callback. exact Hcb.
  - rewrite loop_tick. cbn [trace_of snd pushed_samples].
    apply IH. exact Hcb.
Qed.

End Script.

(** ** Teardown and the whole run *)

Lemma terminate_run (dev : Bleak.Device) (self : BBeltBleak.t) :
  BBeltBleak.terminate dev self =
  let stop := ClientStopNotify (BBeltBleak.char_id self) in
  let disc := ClientDisconnect (Bleak.address (BBeltBleak.client self)) in
  match Bleak.on_stop_notify dev with
  | Bleak.Fails msg => (Val tt, self, [stop; Print msg])
  | Bleak.Done =>
      match Bleak.on_disconnect dev with
      | Bleak.Fails msg => (Val tt, self, [stop; disc; Print msg])
      | Bleak.Done =>
          (Val tt, BBeltBleak.set_is_connected false self, [stop; disc])
      end
  end.
Proof.
  unfold BBeltBleak.terminate, BBeltBleak._terminate,
    BBeltBleak.client_stop_notify, BBeltBleak.client_disconnect,
    BBeltBleak.await.
  destruct (Bleak.on_stop_notify dev), (Bleak.on_disconnect dev); reflexivity.
Qed.

Lemma main_run (args : Args) (dev : Bleak.Device) (inputs : list input) :
  main args dev inputs =
  let r := after_subscribe args dev inputs in
  let t := BBeltBleak.terminate dev (fst r) in
  (Val tt, state_of t,
   NewStreamInfo (info_bamp args) :: NewStreamOutlet (info_bamp args)
   :: connect_out args dev
   ++ Print "start notify" :: ClientStartNotify char_id
   :: snd r ++ trace_of t
   ++ [DelOutlet (outlet_bamp args); Print "terminated"]).
Proof.
  destruct dev as [oc os ot od].
  unfold main, main_at, after_subscribe, connected, connect_out.
  unfold BBeltBleak.launch_at, BBeltBleak._main_at, BBeltBleak.connect_at,
    BBeltBleak.client_connect_at, BBeltBleak.client_start_notify_at,
    during_connect, during_start_notify, arrived_before,
    BBeltBleak.await, try_finally, try_except, bind, get, emit, print,
    raise, ret, BBeltBleak.modify.
  cbn [Bleak.on_connect Bleak.on_start_notify].
  destruct oc as [|mc], os as [|ms]; cbn.
  - pose proof (loop_outcome args inputs
                  (BBeltBleak.set_is_connected true (bbelt args))) as Ho.
    destruct (BBeltBleak.loop args inputs
                (BBeltBleak.set_is_connected true (bbelt args)))
      as [[o st] out].
    cbn in Ho. subst o. cbn.
    destruct (BBeltBleak.terminate _ st) as [[o' st'] out'] eqn:Et.
    pose proof (terminate_run
                  {| Bleak.on_connect := Bleak.Done;
                     Bleak.on_start_notify := Bleak.Done;
                     Bleak.on_stop_notify := ot;
                     Bleak.on_disconnect := od |} st) as Hr.
    rewrite Et in Hr. cbn in Hr.
    destruct ot, od; inversion Hr; subst; cbn;
      repeat rewrite <- app_assoc; reflexivity.
  - destruct ot, od; reflexivity.
  - pose proof (loop_outcome args inputs (bbelt args)) as Ho.
    destruct (BBeltBleak.loop args inputs (bbelt args)) as [[o st] out].
    cbn in Ho. subst o. cbn.
    destruct (BBeltBleak.terminate _ st) as [[o' st'] out'] eqn:Et.
    pose proof (terminate_run
                  {| Bleak.on_connect := Bleak.Fails mc;
                     Bleak.on_start_notify := Bleak.Done;
                     Bleak.on_stop_notify := ot;
                     Bleak.on_disconnect := od |} st) as Hr.
    rewrite Et in Hr. cbn in Hr.
    destruct ot, od; inversion Hr; subst; cbn;
      repeat rewrite <- app_assoc; reflexivity.
  - destruct ot, od; reflexivity.
Qed.

Lemma connected_callback (args : Args) (dev : Bleak.Device) :
  BBeltBleak.callback (connected args dev) = Some (stream args).
Proof. unfold connected. destruct (Bleak.on_connect dev); reflexivity. Qed.

Lemma connected_bIR (args : Args) (dev : Bleak.Device) :
  BBeltBleak.bIR (connected args dev) = 0.
Proof. unfold connected. destruct (Bleak.on_connect dev); reflexivity. Qed.

Lemma connected_samples_in (args : Args) (dev : Bleak.Device) :
  BBeltBleak.samples_in (connected args dev) = 0.
Proof. unfold connected. destruct (Bleak.on_connect dev); reflexivity. Qed.

Lemma stream_infos_app (out1 out2 : trace) :
  stream_infos (out1 ++ out2) = stream_infos out1 ++ stream_infos out2.
Proof.
  induction out1 as [|ev out1 IH]; [reflexivity|].
  destruct ev; cbn; rewrite IH; reflexivity.
Qed.

(** A trace made of console lines and pushed samples declares no stream
    and reports no handler failure. *)
Lemma stream_infos_streaming (out : trace) :
  forallb streaming_event out = true -> stream_infos out = [].
Proof.
  induction out as [|ev out IH]; [reflexivity|].
  cbn [forallb]. intros H. apply andb_prop in H. destruct H as [Hev Hout].
  destruct ev; try discriminate Hev; cbn; exact (IH Hout).
Qed.

Lemma terminate_outcome (dev : Bleak.Device) (self : BBeltBleak.t) :
  outcome_of (BBeltBleak.terminate dev self) = Val tt.
Proof.
  rewrite terminate_run. cbn.
  destruct (Bleak.on_stop_notify dev), (Bleak.on_disconnect dev); reflexivity.
Qed.

(** The teardown prints and talks to the transport; it pushes nothing,
    reports no rate and declares no stream. *)
Lemma terminate_quiet (dev : Bleak.Device) (self : BBeltBleak.t) :
  let out := trace_of (BBeltBleak.terminate dev self) in
  reported_rates out = [] /\ pushed_samples out = [] /\ stream_infos out = []
  /\ count is_handler_failed out = 0%nat.
Proof.
  rewrite terminate_run. cbn.
  destruct (Bleak.on_stop_notify dev), (Bleak.on_disconnect dev);
    repeat split; reflexivity.
Qed.

Lemma terminate_counts (dev : Bleak.Device) (self : BBeltBleak.t) :
  let out := trace_of (BBeltBleak.terminate dev self) in
  count is_stop_notify out = 1%nat
  /\ count is_disconnect out
     = match Bleak.on_stop_notify dev with
       | Bleak.Done => 1%nat
       | Bleak.Fails _ => 0%nat
       end.
Proof.
  rewrite terminate_run. cbn.
  destruct (Bleak.on_stop_notify dev), (Bleak.on_disconnect dev);
    split; reflexivity.
Qed.

Lemma connect_out_quiet (args : Args) (dev : Bleak.Device) :
  let out := connect_out args dev in
  reported_rates out = [] /\ pushed_samples out = [] /\ stream_infos out = []
  /\ count is_handler_failed out = 0%nat
  /\ count is_stop_notify out = 0%nat /\ count is_disconnect out = 0%nat.
Proof.
  unfold connect_out. cbn.
  destruct (Bleak.on_connect dev); repeat split; reflexivity.
Qed.

(** * The specified properties *)

Lemma session_after_callback (args : Args) (dev : Bleak.Device)
    (pre : list input) :
  BBeltBleak.callback (session_after args dev pre) = Some (stream args).
Proof.
  unfold session_after. rewrite loop_callback. apply connected_callback.
Qed.

Lemma session_after_bIR (args : Args) (dev : Bleak.Device)
    (pre : list input) :
  BBeltBleak.bIR (session_after args dev pre) = last_secondary pre.
Proof.
  unfold session_after, last_secondary.
  rewrite loop_bIR, connected_bIR. reflexivity.
Qed.

(** C1.  A payload of 4 to 7 bytes handled at any point of a session is
    decoded into the sample whose primary is the big-endian uint32 of its
    first four bytes and whose secondary is the one carried by the last
    earlier payload of at least 8 bytes, or 0 when there was none; the
    sample is what the handler stores and what it pushes. *)
Theorem short_payload_keeps_last_secondary
    (args : Args) (dev : Bleak.Device) (pre : list input)
    (sender : Z) (data : bytes) :
  4 <= len data < 8 ->
  let r := BBeltBleak._ble_handler args sender data
             (session_after args dev pre) in
  outcome_of r = Val tt
  /\ pushed_samples (trace_of r)
     = [[be_uint32_at data 0; last_secondary pre]]
  /\ BBeltBleak.bamp (state_of r) = be_uint32_at data 0
  /\ BBeltBleak.bIR (state_of r) = last_secondary pre.
Proof.
  intros [H4 H8] r. subst r.
  rewrite handler_stream by apply session_after_callback.
  rewrite session_after_bIR.
  unfold decodable, secondary_after.
  destruct (Z.leb_spec 4 (len data)); [|lia].
  destruct (Z.leb_spec 8 (len data)); [lia|].
  cbn. rewrite pushed_samples_app. unfold verbose_line.
  destruct (verbose args); repeat split; reflexivity.
Qed.

(** Scenario D: after [00 00 00 01 00 00 00 02], the payload
    [00 00 00 03] is decoded into [3, 2]. *)
Lemma short_payload_keeps_last_secondary_witness :
  let dev := Bleak.mkDevice Bleak.Done Bleak.Done Bleak.Done Bleak.Done in
  let first := [x00; x00; x00; x01; x00; x00; x00; x02] in
  let second := [x00; x00; x00; x03] in
  4 <= len second < 8
  /\ pushed_samples
       (trace_of (BBeltBleak._ble_handler default_args 0 second
                    (session_after default_args dev [Notification 0 first])))
     = [[3; 2]].
Proof.
  intros dev first second.
  assert (H : 4 <= len second < 8) by (vm_compute; split; congruence).
  split; [exact H|].
  exact (proj1 (proj2 (short_payload_keeps_last_secondary default_args dev
                         [Notification 0 first] 0 second H))).
Defined.

(** C2.  A payload of at least 8 bytes leaves, whatever was stored
    before, the big-endian uint32 of bytes 4 to 7 as the secondary (and
    that of bytes 0 to 3 as the primary), and this pair is what a
    registered callback receives. *)
Theorem long_payload_sets_secondary
    (args : Args) (sender : Z) (data : bytes) (self : BBeltBleak.t) :
  8 <= len data ->
  let r := BBeltBleak._ble_handler args sender data self in
  let p := be_uint32_at data 0 in
  let s := be_uint32_at data 4 in
  BBeltBleak.bamp (state_of r) = p
  /\ BBeltBleak.bIR (state_of r) = s
  /\ forall cb, BBeltBleak.callback self = Some cb ->
       trace_of r = verbose_line args p s ++ snd (cb [p; s]).
Proof.
  intros H8 r p s. subst r p s.
  rewrite handler_decodes by lia.
  unfold secondary_after.
  destruct (Z.leb_spec 8 (len data)); [|lia].
  cbn. destruct (BBeltBleak.callback self) as [cb0|].
  - repeat split. intros cb Hcb. injection Hcb as <-. reflexivity.
  - repeat split. intros cb Hcb. discriminate Hcb.
Qed.

(** Scenario B: [00 00 00 05 00 00 00 07] gives the sample [5, 7]. *)
Lemma long_payload_sets_secondary_witness :
  let data := [x00; x00; x00; x05; x00; x00; x00; x07] in
  8 <= len data
  /\ pushed_samples
       (trace_of (BBeltBleak._ble_handler default_args 0 data
                    (bbelt default_args)))
     = [[5; 7]].
Proof.
  intros data.
  assert (H : 8 <= len data) by (vm_compute; congruence).
  split; [exact H|].
  rewrite (proj2 (proj2 (long_payload_sets_secondary default_args 0 data
                           (bbelt default_args) H))
             (stream default_args) eq_refl).
  reflexivity.
Defined.

(** C3.  A payload shorter than 4 bytes produces nothing: the handler
    returns normally, emits no effect (so no sample, no callback call)
    and leaves the object, with its stored primary, secondary and sample
    counter, exactly as it was. *)
Theorem undersized_payload_ignored
    (args : Args) (sender : Z) (data : bytes) (self : BBeltBleak.t) :
  len data < 4 ->
  BBeltBleak._ble_handler args sender data self = (Val tt, self, []).
Proof. apply handler_short. Qed.

(** Scenario C: the 2-byte payload [01 02]. *)
Lemma undersized_payload_ignored_witness :
  len [x01; x02] < 4
  /\ BBeltBleak._ble_handler default_args 0 [x01; x02] (bbelt default_args)
     = (Val tt, bbelt default_args, []).
Proof.
  assert (H : len [x01; x02] < 4) by reflexivity.
  split; [exact H|].
  exact (undersized_payload_ignored default_args 0 [x01; x02]
           (bbelt default_args) H).
Defined.

(** C4.  The sample counter goes up by one for a handled payload of at
    least 4 bytes and stays put for a shorter one; a diagnostic tick
    reports the counter divided by 5 and resets it to 0; so over a whole
    run the rates reported are, tick by tick, the number of decodable
    payloads received since the previous tick divided by 5, and between
    ticks the counter holds the number received since the last one. *)
Theorem sample_counter_per_window
    (args : Args) (dev : Bleak.Device) (inputs : list input) :
  (forall sender data self,
     BBeltBleak.samples_in
       (state_of (BBeltBleak._ble_handler args sender data self))
     = BBeltBleak.samples_in self + (if 4 <=? len data then 1 else 0))
  /\ (forall rest self,
        let r := BBeltBleak.loop args rest (BBeltBleak.set_samples_in 0 self) in
        BBeltBleak.loop args (Tick :: rest) self
        = (outcome_of r, state_of r,
           PrintRate (inject_Z (BBeltBleak.samples_in self) / 5)%Q
           :: trace_of r))
  /\ (forall self,
        BBeltBleak.samples_in (state_of (BBeltBleak.loop args [Tick] self)) = 0)
  /\ reported_rates (trace_of (main args dev inputs))
     = match Bleak.on_start_notify dev with
       | Bleak.Done =>
           map (fun w => (inject_Z (count_decodable w) / 5)%Q)
             (closed_windows [] inputs)
       | Bleak.Fails _ => []
       end
  /\ BBeltBleak.samples_in (session_after args dev inputs)
     = count_decodable (open_window [] inputs).
Proof.
  split; [|split; [|split; [|split]]].
  - intros sender data self. apply handler_samples_in.
  - intros rest self r. subst r. apply loop_tick.
  - intros self. reflexivity.
  - rewrite main_run. cbn [trace_of snd reported_rates].
    destruct (connect_out_quiet args dev) as (Hc & _).
    destruct (terminate_quiet dev (fst (after_subscribe args dev inputs)))
      as (Ht & _).
    rewrite reported_rates_app, Hc. cbn [app reported_rates].
    rewrite !reported_rates_app, Ht. cbn [reported_rates].
    rewrite app_nil_r.
    unfold after_subscribe.
    destruct (Bleak.on_start_notify dev); [|reflexivity].
    cbn [snd reported_rates]. rewrite reported_rates_app.
    cbn [reported_rates]. rewrite app_nil_r.
    apply loop_reported_rates.
    + apply connected_callback.
    + apply connected_samples_in.
  - unfold session_after. apply loop_samples_in. apply connected_samples_in.
Qed.

Lemma main_counts (args : Args) (dev : Bleak.Device) (inputs : list input) :
  let out := trace_of (main args dev inputs) in
  count is_stop_notify out = 1%nat
  /\ count is_disconnect out
     = match Bleak.on_stop_notify dev with
       | Bleak.Done => 1%nat
       | Bleak.Fails _ => 0%nat
       end.
Proof.
  cbn zeta. rewrite main_run. cbn [trace_of snd].
  destruct (connect_out_quiet args dev) as (_ & _ & _ & _ & Hcs & Hcd).
  destruct (terminate_counts dev (fst (after_subscribe args dev inputs)))
    as (Hts & Htd).
  assert (Hmid : count is_stop_notify (snd (after_subscribe args dev inputs))
                 = 0%nat
                 /\ count is_disconnect (snd (after_subscribe args dev inputs))
                    = 0%nat).
  { unfold after_subscribe.
    destruct (Bleak.on_start_notify dev); [|split; reflexivity].
    cbn [snd]. rewrite !count_cons, !count_app.
    pose proof (loop_stream_events args inputs (connected args dev)
                  (connected_callback args dev)) as Hev.
    rewrite (count_outside_stream is_stop_notify _
               (fun ev => match ev with
                          | ClientStopNotify _ => fun H => False_ind _ (diff_false_true H)
                          | _ => fun _ => eq_refl
                          end) Hev).
    rewrite (count_outside_stream is_disconnect _
               (fun ev => match ev with
                          | ClientDisconnect _ => fun H => False_ind _ (diff_false_true H)
                          | _ => fun _ => eq_refl
                          end) Hev).
    split; reflexivity. }
  destruct Hmid as (Hms & Hmd).
  rewrite !count_cons, !count_app, !count_cons, !count_app.
  rewrite Hcs, Hcd, Hts, Htd, Hms, Hmd. cbn.
  destruct (Bleak.on_stop_notify dev); split; reflexivity.
Qed.

Lemma main_interrupt_caught (args : Args) (dev : Bleak.Device)
    (inputs : list input) :
  Bleak.on_start_notify dev = Bleak.Done ->
  interrupt_caught (trace_of (main args dev inputs)).
Proof.
  intros Hs. unfold interrupt_caught. rewrite main_run. cbn [trace_of snd].
  right. right. apply in_or_app. right.
  right. right. apply in_or_app. left.
  unfold after_subscribe. rewrite Hs. cbn [snd].
  right. right. apply in_or_app. right. left. reflexivity.
Qed.

Lemma main_outcome (args : Args) (dev : Bleak.Device) (inputs : list input) :
  outcome_of (main args dev inputs) = Val tt.
Proof. rewrite main_run. reflexivity. Qed.

(** C5.  The code at the failing input: with a device whose
    [stop_notify] raises, a streaming session that is interrupted runs
    the termination path, calls [stop_notify] once and never calls
    [disconnect], so that unsubscribe and disconnect are not each invoked
    exactly once.  [_terminate] awaits the two calls in sequence and
    [terminate] wraps both in one [try], although it is documented to
    end the BLE connection gracefully. *)
Lemma stop_notify_error_skips_disconnect :
  let dev := Bleak.mkDevice Bleak.Done Bleak.Done
               (Bleak.Fails "Characteristic notifications not started")
               Bleak.Done in
  let out := trace_of (main default_args dev
                         [Notification 0 [x00; x00; x00; x05]; Tick]) in
  interrupt_caught out
  /\ count is_stop_notify out = 1%nat
  /\ count is_disconnect out = 0%nat
  /\ ~ teardown_each_once out.
Proof.
  cbn zeta. split; [|split; [|split]].
  - apply main_interrupt_caught. reflexivity.
  - vm_compute. reflexivity.
  - vm_compute. reflexivity.
  - intros [_ H]. vm_compute in H. discriminate H.
Qed.

(** What the teardown of an interrupted streaming session does, device
    by device: the script catches the interrupt and runs the termination
    path to its end without raising; [stop_notify] is called once, and
    [disconnect] is called once when [stop_notify] completes and is
    skipped when it raises. *)
Lemma teardown_after_interrupt
    (args : Args) (dev : Bleak.Device) (inputs : list input) :
  Bleak.on_start_notify dev = Bleak.Done ->
  let out := trace_of (main args dev inputs) in
  interrupt_caught out
  /\ outcome_of (main args dev inputs) = Val tt
  /\ count is_stop_notify out = 1%nat
  /\ count is_disconnect out
     = match Bleak.on_stop_notify dev with
       | Bleak.Done => 1%nat
       | Bleak.Fails _ => 0%nat
       end.
Proof.
  intros Hs out. subst out.
  split; [apply main_interrupt_caught; exact Hs|].
  split; [apply main_outcome|].
  apply main_counts.
Qed.

(** A session whose connect failed, interrupted while streaming, on a
    device whose teardown calls complete. *)
Lemma teardown_after_interrupt_witness :
  let dev := Bleak.mkDevice (Bleak.Fails "Device not found") Bleak.Done
               Bleak.Done Bleak.Done in
  let out := trace_of (main default_args dev
                         [Notification 0 [x00; x00; x00; x05]; Tick]) in
  Bleak.on_start_notify dev = Bleak.Done
  /\ count is_stop_notify out = 1%nat
  /\ count is_disconnect out = 1%nat.
Proof.
  intros dev out.
  assert (H : Bleak.on_start_notify dev = Bleak.Done) by reflexivity.
  split; [exact H|].
  exact (proj2 (proj2 (teardown_after_interrupt default_args dev
                         [Notification 0 [x00; x00; x00; x05]; Tick] H))).
Defined.

(** C6.  For a payload of at least 4 bytes and a registered callback, the
    handler's run is the verbose line (if any) followed by the effects of
    one application of the callback to the two-element list of the
    primary and secondary just stored, and its outcome is that
    application's; with the script's callback this is exactly one
    [push_sample] of that list. *)
Theorem callback_invoked_once
    (args : Args) (sender : Z) (data : bytes) (self : BBeltBleak.t)
    (cb : callback_t) :
  4 <= len data ->
  BBeltBleak.callback self = Some cb ->
  let r := BBeltBleak._ble_handler args sender data self in
  let p := be_uint32_at data 0 in
  let s := secondary_after (BBeltBleak.bIR self) data in
  BBeltBleak.bamp (state_of r) = p
  /\ BBeltBleak.bIR (state_of r) = s
  /\ outcome_of r = fst (cb [p; s])
  /\ trace_of r = verbose_line args p s ++ snd (cb [p; s])
  /\ (cb = stream args -> pushed_samples (trace_of r) = [[p; s]]).
Proof.
  intros H4 Hcb r p s. subst r p s.
  rewrite handler_decodes by exact H4. cbn zeta. rewrite Hcb.
  cbn [state_of outcome_of trace_of fst snd].
  repeat split.
  intros ->. rewrite pushed_samples_app. unfold verbose_line.
  destruct (verbose args); reflexivity.
Qed.

(** Scenario A: [00 00 00 05] on the script's fresh object is pushed
    once, as [5, 0]. *)
Lemma callback_invoked_once_witness :
  let data := [x00; x00; x00; x05] in
  4 <= len data
  /\ BBeltBleak.callback (bbelt default_args) = Some (stream default_args)
  /\ pushed_samples
       (trace_of (BBeltBleak._ble_handler default_args 0 data
                    (bbelt default_args)))
     = [[5; 0]].
Proof.
  intros data.
  assert (H : 4 <= len data) by (vm_compute; congruence).
  split; [exact H|]. split; [reflexivity|].
  exact (proj2 (proj2 (proj2 (proj2
           (callback_invoked_once default_args 0 data (bbelt default_args)
              (stream default_args) H eq_refl)))) eq_refl).
Defined.

Lemma main_no_handler_failure (args : Args) (dev : Bleak.Device)
    (inputs : list input) :
  count is_handler_failed (trace_of (main args dev inputs)) = 0%nat.
Proof.
  rewrite main_run. cbn [trace_of snd].
  destruct (connect_out_quiet args dev) as (_ & _ & _ & Hc & _).
  destruct (terminate_quiet dev (fst (after_subscribe args dev inputs)))
    as (_ & _ & _ & Ht).
  rewrite !count_cons, !count_app, !count_cons, !count_app, Hc, Ht.
  unfold after_subscribe.
  destruct (Bleak.on_start_notify dev); [|reflexivity].
  cbn [snd]. rewrite !count_cons, !count_app.
  rewrite (count_outside_stream is_handler_failed
             (trace_of (BBeltBleak.loop args inputs (connected args dev)))).
  - reflexivity.
  - intros [] H; try reflexivity; discriminate H.
  - apply loop_stream_events. apply connected_callback.
Qed.

(** C7.  No byte buffer makes the handler raise: a buffer shorter than 4
    bytes is dropped, and for any other the two unpack calls succeed, so
    that the handler's outcome is normal unless the registered callback
    itself raises on the decoded pair.  With the script's callback, which
    pushes and returns, the handler returns normally at every point of
    every session and no run ever records an exception leaving it. *)
Theorem handler_never_raises (args : Args) :
  (forall sender data self,
     let r := BBeltBleak._ble_handler args sender data self in
     outcome_of r
     = match BBeltBleak.callback self with
       | Some cb =>
           if 4 <=? len data
           then fst (cb [BBeltBleak.bamp (state_of r);
                         BBeltBleak.bIR (state_of r)])
           else Val tt
       | None => Val tt
       end)
  /\ (forall dev pre sender data,
        outcome_of (BBeltBleak._ble_handler args sender data
                      (session_after args dev pre)) = Val tt)
  /\ (forall dev inputs,
        count is_handler_failed (trace_of (main args dev inputs)) = 0%nat).
Proof.
  split; [|split].
  - intros sender data self r. subst r.
    destruct (Z.leb_spec 4 (len data)) as [H|H].
    + rewrite handler_decodes by exact H. cbn zeta.
      destruct (BBeltBleak.callback self); reflexivity.
    + rewrite handler_short by exact H.
      destruct (BBeltBleak.callback self); reflexivity.
  - intros dev pre sender data.
    rewrite handler_stream by apply session_after_callback.
    destruct (decodable data); reflexivity.
  - intros dev inputs. apply main_no_handler_failure.
Qed.

Lemma main_pushed_samples (args : Args) (dev : Bleak.Device)
    (inputs : list input) :
  pushed_samples (trace_of (main args dev inputs))
  = match Bleak.on_start_notify dev with
    | Bleak.Done =>
        pushed_samples
          (trace_of (BBeltBleak.loop args inputs (connected args dev)))
    | Bleak.Fails _ => []
    end.
Proof.
  rewrite main_run. cbn [trace_of snd pushed_samples].
  destruct (connect_out_quiet args dev) as (_ & Hc & _).
  destruct (terminate_quiet dev (fst (after_subscribe args dev inputs)))
    as (_ & Ht & _).
  rewrite pushed_samples_app, Hc. cbn [app pushed_samples].
  rewrite !pushed_samples_app, Ht. cbn [pushed_samples].
  rewrite app_nil_r. unfold after_subscribe.
  destruct (Bleak.on_start_notify dev); [|reflexivity].
  cbn [snd pushed_samples]. rewrite pushed_samples_app.
  cbn [pushed_samples]. apply app_nil_r.
Qed.

Lemma main_stream_infos (args : Args) (dev : Bleak.Device)
    (inputs : list input) :
  stream_infos (trace_of (main args dev inputs)) = [info_bamp args].
Proof.
  rewrite main_run. cbn [trace_of snd stream_infos].
  destruct (connect_out_quiet args dev) as (_ & _ & Hc & _).
  destruct (terminate_quiet dev (fst (after_subscribe args dev inputs)))
    as (_ & _ & Ht & _).
  rewrite stream_infos_app, Hc. cbn [app stream_infos].
  rewrite !stream_infos_app, Ht. cbn [stream_infos app].
  rewrite app_nil_r. unfold after_subscribe.
  destruct (Bleak.on_start_notify dev); [|reflexivity].
  cbn [snd stream_infos]. rewrite stream_infos_app.
  rewrite stream_infos_streaming
    by (apply loop_stream_events; apply connected_callback).
  reflexivity.
Qed.

(** C8.  Every run of the script declares exactly one stream: two
    channels, float32, nominal rate 12, and the source id made of the
    name, the type and the MAC address joined by underscores.  It pushes
    one sample for each payload of at least 4 bytes that the streaming
    session receives (none when the subscription failed, as nothing is
    then received), and each pushed sample has as many values as the
    declaration has channels. *)
Theorem one_declaration_one_push_per_payload
    (args : Args) (dev : Bleak.Device) (inputs : list input) :
  let out := trace_of (main args dev inputs) in
  stream_infos out
  = [Lsl.mkStreamInfo (name args) (type args) 2 12 "float32"
       (name args ++ "_" ++ type args ++ "_" ++ mac_address args)]
  /\ Z.of_nat (List.length (pushed_samples out))
     = match Bleak.on_start_notify dev with
       | Bleak.Done => count_decodable (payloads inputs)
       | Bleak.Fails _ => 0
       end
  /\ Forall (fun x => Z.of_nat (List.length x)
                      = Lsl.channel_count (info_bamp args))
       (pushed_samples out).
Proof.
  cbn zeta. split; [|split].
  - apply main_stream_infos.
  - rewrite main_pushed_samples.
    destruct (Bleak.on_start_notify dev); [|reflexivity].
    apply loop_pushed_count. apply connected_callback.
  - rewrite main_pushed_samples.
    destruct (Bleak.on_start_notify dev); [|constructor].
    eapply Forall_impl;
      [| apply (loop_pushed_arity args inputs (connected args dev)
                  (connected_callback args dev))].
    intros x Hx. cbn in Hx. rewrite Hx. reflexivity.
Qed.

(** C9.  [terminate] always returns normally: when [stop_notify] or
    [disconnect] raises, the error is caught and its message printed, and
    nothing propagates; a run of the script therefore always reaches its
    last line. *)
Theorem terminate_never_raises (dev : Bleak.Device) (self : BBeltBleak.t) :
  let r := BBeltBleak.terminate dev self in
  let stop := ClientStopNotify (BBeltBleak.char_id self) in
  let disc := ClientDisconnect (Bleak.address (BBeltBleak.client self)) in
  outcome_of r = Val tt
  /\ trace_of r
     = match Bleak.on_stop_notify dev with
       | Bleak.Fails msg => [stop; Print msg]
       | Bleak.Done =>
           match Bleak.on_disconnect dev with
           | Bleak.Fails msg => [stop; disc; Print msg]
           | Bleak.Done => [stop; disc]
           end
       end
  /\ (forall args inputs,
        outcome_of (main args dev inputs) = Val tt
        /\ exists before,
             trace_of (main args dev inputs)
             = before ++ [DelOutlet (outlet_bamp args); Print "terminated"]).
Proof.
  cbn zeta. split; [apply terminate_outcome|]. split.
  - rewrite terminate_run. cbn zeta.
    destruct (Bleak.on_stop_notify dev), (Bleak.on_disconnect dev);
      reflexivity.
  - intros args inputs. split; [apply main_outcome|].
    rewrite main_run. cbn [trace_of snd].
    exists (NewStreamInfo (info_bamp args) :: NewStreamOutlet (info_bamp args)
            :: connect_out args dev
            ++ Print "start notify" :: ClientStartNotify char_id
            :: snd (after_subscribe args dev inputs)
            ++ trace_of (BBeltBleak.terminate dev
                           (fst (after_subscribe args dev inputs)))).
    cbn [app]. rewrite <- app_assoc. cbn [app]. rewrite <- app_assoc.
    reflexivity.
Qed.

(** Where the module-level [args] is bound, a payload of at least 4
    bytes handled with no callback registered is decoded and stored, the
    counter goes up by one, and the handler returns normally having done
    nothing else than print the verbose line. *)
Lemma no_callback_still_updates
    (args : Args) (sender : Z) (data : bytes) (self : BBeltBleak.t) :
  4 <= len data ->
  BBeltBleak.callback self = None ->
  let r := BBeltBleak._ble_handler args sender data self in
  let p := be_uint32_at data 0 in
  let s := secondary_after (BBeltBleak.bIR self) data in
  outcome_of r = Val tt
  /\ BBeltBleak.bamp (state_of r) = p
  /\ BBeltBleak.bIR (state_of r) = s
  /\ BBeltBleak.samples_in (state_of r) = BBeltBleak.samples_in self + 1
  /\ trace_of r = verbose_line args p s.
Proof.
  intros H4 Hcb r p s. subst r p s.
  rewrite handler_decodes by exact H4. cbn zeta. rewrite Hcb.
  repeat split.
Qed.

(** An object built without a callback receives [00 00 00 05 00 00 00 07]. *)
Lemma no_callback_still_updates_witness :
  let data := [x00; x00; x00; x05; x00; x00; x00; x07] in
  let self := BBeltBleak.__init__ ADDRESS CHARACTERISTIC_UUID_HR false None in
  let r := BBeltBleak._ble_handler default_args 0 data self in
  4 <= len data
  /\ BBeltBleak.callback self = None
  /\ outcome_of r = Val tt
  /\ BBeltBleak.bamp (state_of r) = 5
  /\ BBeltBleak.bIR (state_of r) = 7
  /\ BBeltBleak.samples_in (state_of r) = 1
  /\ trace_of r = [].
Proof.
  intros data self r.
  assert (H : 4 <= len data) by (vm_compute; congruence).
  split; [exact H|]. split; [reflexivity|].
  exact (no_callback_still_updates default_args 0 data self H eq_refl).
Defined.

Lemma handler_unbound_args (sender : Z) (data : bytes) (self : BBeltBleak.t) :
  4 <= len data ->
  BBeltBleak._ble_handler_with None sender data self
  = (Exc (Exception "name 'args' is not defined"),
     decoded self (be_uint32_at data 0)
       (secondary_after (BBeltBleak.bIR self) data),
     []).
Proof.
  intros H.
  unfold BBeltBleak._ble_handler_with, BBeltBleak.global_args,
    secondary_after.
  destruct (Z.leb_spec 4 (len data)) as [_|]; [|lia].
  unfold bind at 1, lift. rewrite (unpack_slice_0 data H).
  destruct (Z.leb_spec 8 (len data)) as [H8|H8].
  - unfold bind, lift, BBeltBleak.modify, raise.
    rewrite (unpack_slice_4 data H8). reflexivity.
  - reflexivity.
Qed.

(** C10.  The code at the failing input.  The script always registers
    [stream], so an object without a callback is one built by a module
    that imports the class, where the global [args] is unbound: there a
    payload of 8 bytes is decoded and stored and the counter goes up by
    one, and then the handler raises [NameError] on reading
    [args.verbose], instead of returning normally with only the dispatch
    skipped.  The [verbose] argument that [__init__] documents is never
    stored, and the handler reads the script's global in its place. *)
Lemma no_callback_handler_raises_outside_script :
  let data := [x00; x00; x00; x05; x00; x00; x00; x07] in
  let self := BBeltBleak.__init__ ADDRESS CHARACTERISTIC_UUID_HR false None in
  let r := BBeltBleak._ble_handler_with None 0 data self in
  BBeltBleak.callback self = None
  /\ outcome_of r = Exc (Exception "name 'args' is not defined")
  /\ BBeltBleak.bamp (state_of r) = 5
  /\ BBeltBleak.bIR (state_of r) = 7
  /\ BBeltBleak.samples_in (state_of r) = 1
  /\ trace_of r = [].
Proof.
  intros data self r. subst r.
  rewrite handler_unbound_args by (vm_compute; congruence).
  repeat split.
Qed.


(** * Further properties of the code *)

(** ** What the handler and the loop leave alone *)

Lemma handler_frame (args : Args) (sender : Z) (data : bytes)
    (self : BBeltBleak.t) :
  let self' := state_of (BBeltBleak._ble_handler args sender data self) in
  BBeltBleak.addr self' = BBeltBleak.addr self
  /\ BBeltBleak.char_id self' = BBeltBleak.char_id self
  /\ BBeltBleak.client self' = BBeltBleak.client self.
Proof.
  cbn zeta. destruct (Z.lt_ge_cases (len data) 4) as [H|H].
  - rewrite handler_short by exact H. repeat split.
  - rewrite handler_decodes by exact H. cbn zeta.
    destruct (BBeltBleak.callback self); repeat split.
Qed.

Lemma handler_bamp (args : Args) (sender : Z) (data : bytes)
    (self : BBeltBleak.t) :
  BBeltBleak.bamp (state_of (BBeltBleak._ble_handler args sender data self))
  = if decodable data then be_uint32_at data 0 else BBeltBleak.bamp self.
Proof.
  unfold decodable.
  destruct (Z.leb_spec 4 (len data)) as [H|H].
  - rewrite handler_decodes by exact H. cbn zeta.
    destruct (BBeltBleak.callback self); reflexivity.
  - rewrite handler_short by exact H. reflexivity.
Qed.

Lemma loop_frame
    (args : Args) (inputs : list input) (self : BBeltBleak.t) :
  let self' := state_of (BBeltBleak.loop args inputs self) in
  BBeltBleak.addr self' = BBeltBleak.addr self
  /\ BBeltBleak.char_id self' = BBeltBleak.char_id self
  /\ BBeltBleak.callback self' = BBeltBleak.callback self
  /\ BBeltBleak.client self' = BBeltBleak.client self.
Proof.
  cbn zeta. revert self.
  induction inputs as [|[sender data|] rest IH]; intros self.
  - repeat split.
  - rewrite loop_notification. cbn [state_of fst snd].
    destruct (IH (state_of (BBeltBleak._ble_handler args sender data self)))
      as (Ha & Hc & Hcb & Hcl).
    destruct (handler_frame args sender data self) as (Ha' & Hc' & Hcl').
    rewrite Ha, Hc, Hcb, Hcl, Ha', Hc', Hcl', handler_callback.
    repeat split.
  - rewrite loop_tick. cbn [state_of fst snd].
    destruct (IH (BBeltBleak.set_samples_in 0 self)) as (Ha & Hc & Hcb & Hcl).
    rewrite Ha, Hc, Hcb, Hcl. repeat split.
Qed.

(** X1.  Whatever arrives while the session waits, payloads of any size
    and ticks in any order, the object keeps the address, the
    characteristic, the registered callback and the client it had: the
    handler and the diagnostic tick only ever write [bamp], [bIR] and
    [samples_in]. *)
Theorem loop_keeps_registration
    (args : Args) (inputs : list input) (self : BBeltBleak.t) :
  let self' := state_of (BBeltBleak.loop args inputs self) in
  BBeltBleak.addr self' = BBeltBleak.addr self
  /\ BBeltBleak.char_id self' = BBeltBleak.char_id self
  /\ BBeltBleak.callback self' = BBeltBleak.callback self
  /\ BBeltBleak.client self' = BBeltBleak.client self.
Proof. apply loop_frame. Qed.

(** ** The samples of a whole session *)

Lemma loop_pushed_samples (args : Args) (inputs : list input)
    (self : BBeltBleak.t) :
  BBeltBleak.callback self = Some (stream args) ->
  pushed_samples (trace_of (BBeltBleak.loop args inputs self))
  = samples_from (BBeltBleak.bIR self) (payloads inputs).
Proof.
  revert self. induction inputs as [|[sender data|] rest IH]; intros self Hcb.
  - reflexivity.
  - rewrite loop_notification. cbn [trace_of snd payloads samples_from].
    rewrite pushed_samples_app.
    rewrite IH by (rewrite handler_callback; exact Hcb).
    rewrite handler_bIR.
    rewrite handler_stream by exact Hcb.
    unfold decodable, secondary_after.
    destruct (4 <=? len data); [|reflexivity].
    unfold failure_of, verbose_line.
    destruct (verbose args); reflexivity.
  - rewrite loop_tick. cbn [trace_of snd payloads pushed_samples].
    exact (IH (BBeltBleak.set_samples_in 0 self) Hcb).
Qed.

(** X2.  The samples pushed during a whole run are, in arrival order, one
    pair per payload of at least 4 bytes: the big-endian uint32 of bytes
    0..3, then that of bytes 4..7 when the payload has them and otherwise
    the secondary of the pair before (0 at the start).  Ticks, shorter
    payloads, the verbose flag and the outcome of connect change nothing
    of it; a failed subscription gives no sample at all. *)
Theorem run_pushes_samples_in_order
    (args : Args) (dev : Bleak.Device) (inputs : list input) :
  pushed_samples (trace_of (main args dev inputs))
  = match Bleak.on_start_notify dev with
    | Bleak.Done => samples_from 0 (payloads inputs)
    | Bleak.Fails _ => []
    end.
Proof.
  rewrite main_pushed_samples.
  destruct (Bleak.on_start_notify dev); [|reflexivity].
  rewrite loop_pushed_samples by apply connected_callback.
  rewrite connected_bIR. reflexivity.
Qed.

Lemma samples_from_uint32 (prev : Z) (ps : list bytes) :
  uint32 prev -> Forall (Forall uint32) (samples_from prev ps).
Proof.
  revert prev. induction ps as [|data rest IH]; intros prev Hp.
  - constructor.
  - cbn [samples_from]. destruct (4 <=? len data); [|apply IH; exact Hp].
    assert (Hs : uint32 (if 8 <=? len data then be_uint32_at data 4 else prev)).
    { destruct (8 <=? len data); [apply be_uint32_at_range | exact Hp]. }
    constructor; [|apply IH; exact Hs].
    constructor; [apply be_uint32_at_range|].
    constructor; [exact Hs | constructor].
Qed.

(** X3.  Every value the script ever hands to [push_sample] is an
    unsigned 32-bit integer, and so are the primary and the secondary
    stored in the object at any point of a session. *)
Theorem pushed_values_are_uint32
    (args : Args) (dev : Bleak.Device) (inputs : list input) :
  Forall (Forall uint32) (pushed_samples (trace_of (main args dev inputs)))
  /\ uint32 (BBeltBleak.bamp (session_after args dev inputs))
  /\ uint32 (BBeltBleak.bIR (session_after args dev inputs)).
Proof.
  split; [|split].
  - rewrite main_pushed_samples.
    destruct (Bleak.on_start_notify dev); [|constructor].
    rewrite loop_pushed_samples by apply connected_callback.
    apply samples_from_uint32. rewrite connected_bIR. unfold uint32. lia.
  - unfold session_after.
    assert (H : forall self, uint32 (BBeltBleak.bamp self) ->
              uint32 (BBeltBleak.bamp
                        (state_of (BBeltBleak.loop args inputs self)))).
    { induction inputs as [|[sender data|] rest IH]; intros self Hs.
      - exact Hs.
      - rewrite loop_notification. cbn [state_of fst snd]. apply IH.
        rewrite handler_bamp.
        destruct (decodable data); [apply be_uint32_at_range | exact Hs].
      - rewrite loop_tick. cbn [state_of fst snd]. apply IH. exact Hs. }
    apply H. unfold connected.
    destruct (Bleak.on_connect dev); cbn; unfold uint32; lia.
  - rewrite session_after_bIR. unfold last_secondary.
    destruct (find carries_secondary (rev (payloads inputs)));
      [apply be_uint32_at_range | unfold uint32; lia].
Qed.


(** ** Counting across ticks *)

Lemma count_decodable_cons (data : bytes) (rest : list bytes) :
  count_decodable (data :: rest)
  = (if decodable data then 1 else 0) + count_decodable rest.
Proof.
  unfold count_decodable. cbn [filter].
  destruct (decodable data); cbn [List.length]; lia.
Qed.

Lemma loop_conservation (args : Args) (inputs : list input)
    (self : BBeltBleak.t) :
  BBeltBleak.callback self = Some (stream args) ->
  (5 * sum_rates (reported_rates (trace_of (BBeltBleak.loop args inputs self)))
   + inject_Z (BBeltBleak.samples_in
                 (state_of (BBeltBleak.loop args inputs self)))
   == inject_Z (BBeltBleak.samples_in self
                + count_decodable (payloads inputs)))%Q.
Proof.
  revert self. induction inputs as [|[sender data|] rest IH]; intros self Hcb.
  - cbn. rewrite Z.add_0_r. ring.
  - rewrite loop_notification. cbn [trace_of state_of fst snd payloads].
    rewrite reported_rates_app.
    assert (Hq : reported_rates
                   (trace_of (BBeltBleak._ble_handler args sender data self)
                    ++ failure_of
                         (BBeltBleak._ble_handler args sender data self))
                 = []).
    { rewrite handler_stream by exact Hcb.
      destruct (decodable data); [|reflexivity].
      unfold failure_of, verbose_line. cbn.
      destruct (verbose args); reflexivity. }
    rewrite Hq. cbn [app].
    rewrite IH by (rewrite handler_callback; exact Hcb).
    rewrite handler_samples_in, count_decodable_cons, Z.add_assoc.
    reflexivity.
  - rewrite loop_tick.
    cbn [trace_of state_of fst snd payloads reported_rates sum_rates
         fold_right].
    fold (sum_rates (reported_rates
                       (trace_of (BBeltBleak.loop args rest
                                    (BBeltBleak.set_samples_in 0 self))))).
    pose proof (IH (BBeltBleak.set_samples_in 0 self) Hcb) as H.
    cbn [BBeltBleak.samples_in BBeltBleak.set_samples_in] in H.
    rewrite Z.add_0_l in H.
    rewrite inject_Z_plus, <- H. unfold rate_hz. field.
Qed.

(** X4.  No decoded payload is lost or counted twice by the diagnostic
    counter: at any point of a session, five times the sum of the rates
    reported so far plus the current value of the counter is the number
    of samples pushed so far. *)
Theorem rates_account_for_every_sample
    (args : Args) (dev : Bleak.Device) (inputs : list input) :
  let r := BBeltBleak.loop args inputs (connected args dev) in
  (5 * sum_rates (reported_rates (trace_of r))
   + inject_Z (BBeltBleak.samples_in (state_of r))
   == inject_Z (Z.of_nat (List.length (pushed_samples (trace_of r)))))%Q.
Proof.
  cbn zeta.
  rewrite loop_conservation by apply connected_callback.
  rewrite loop_pushed_count by apply connected_callback.
  rewrite connected_samples_in. reflexivity.
Qed.


(** ** Connecting and subscribing *)

Lemma connect_run (dev : Bleak.Device) (self : BBeltBleak.t) :
  BBeltBleak.connect dev self =
  if Bleak.is_connected (BBeltBleak.client self) then (Val tt, self, [])
  else
    let hello := Print ("Connecting to " ++ BBeltBleak.addr self) in
    let call := ClientConnect (Bleak.address (BBeltBleak.client self)) in
    match Bleak.on_connect dev with
    | Bleak.Done =>
        (Val tt, BBeltBleak.set_is_connected true self,
         [hello; call; Print "Connected: True"])
    | Bleak.Fails msg => (Val tt, self, [hello; call; Print msg])
    end.
Proof.
  unfold BBeltBleak.connect, BBeltBleak.connect_at,
    BBeltBleak.client_connect_at, BBeltBleak.await, bind, get, try_except.
  destruct (Bleak.is_connected (BBeltBleak.client self)); [reflexivity|].
  destruct (Bleak.on_connect dev); reflexivity.
Qed.




Lemma main_attempts
    (args : Args) (dev : Bleak.Device)
    (inputs : list input) :
  let out := trace_of (main args dev inputs) in
  count is_connect out = 1%nat /\ count is_start_notify out = 1%nat.
Proof.
  cbn zeta. rewrite main_run. cbn [trace_of snd].
  assert (Hc : count is_connect (connect_out args dev) = 1%nat
               /\ count is_start_notify (connect_out args dev) = 0%nat).
  { unfold connect_out. destruct (Bleak.on_connect dev); split; reflexivity. }
  assert (Ht : count is_connect
                 (trace_of (BBeltBleak.terminate dev
                              (fst (after_subscribe args dev inputs))))
               = 0%nat
               /\ count is_start_notify
                    (trace_of (BBeltBleak.terminate dev
                                 (fst (after_subscribe args dev inputs))))
                  = 0%nat).
  { rewrite terminate_run. cbn zeta.
    destruct (Bleak.on_stop_notify dev), (Bleak.on_disconnect dev);
      split; reflexivity. }
  assert (Hm : count is_connect (snd (after_subscribe args dev inputs))
               = 0%nat
               /\ count is_start_notify
                    (snd (after_subscribe args dev inputs)) = 0%nat).
  { unfold after_subscribe.
    destruct (Bleak.on_start_notify dev); [|split; reflexivity].
    cbn [snd]. rewrite !count_cons, !count_app.
    pose proof (loop_stream_events args inputs (connected args dev)
                  (connected_callback args dev)) as Hev.
    rewrite (count_outside_stream is_connect
               (trace_of (BBeltBleak.loop args inputs (connected args dev))))
      by (try exact Hev; intros [] H; try reflexivity; discriminate H).
    rewrite (count_outside_stream is_start_notify
               (trace_of (BBeltBleak.loop args inputs (connected args dev))))
      by (try exact Hev; intros [] H; try reflexivity; discriminate H).
    split; reflexivity. }
  destruct Hc as (Hc1 & Hc2), Ht as (Ht1 & Ht2), Hm as (Hm1 & Hm2).
  rewrite !count_cons, !count_app, !count_cons, !count_app.
  rewrite Hc1, Hc2, Ht1, Ht2, Hm1, Hm2. split; reflexivity.
Qed.


(** X7.  [connect] guards on the client's state: called twice in a row
    it reaches the transport once when the first attempt succeeds, twice
    when it fails (the failure leaves the client unconnected), and not at
    all on a client that is already connected. *)
Theorem connect_twice (dev : Bleak.Device) (self : BBeltBleak.t) :
  count is_connect
    (trace_of ((BBeltBleak.connect dev ;; BBeltBleak.connect dev) self))
  = if Bleak.is_connected (BBeltBleak.client self) then 0%nat
    else match Bleak.on_connect dev with
         | Bleak.Done => 1%nat
         | Bleak.Fails _ => 2%nat
         end.
Proof.
  unfold bind. rewrite connect_run.
  destruct (Bleak.is_connected (BBeltBleak.client self)) eqn:E.
  - rewrite connect_run, E. reflexivity.
  - destruct (Bleak.on_connect dev) eqn:Ec; cbv beta iota zeta;
      rewrite connect_run.
    + reflexivity.
    + rewrite E, Ec. reflexivity.
Qed.



(** ** The client at the end of a run *)

Lemma after_subscribe_frame (args : Args) (dev : Bleak.Device)
    (inputs : list input) :
  let st := fst (after_subscribe args dev inputs) in
  BBeltBleak.char_id st = char_id
  /\ Bleak.address (BBeltBleak.client st) = mac_address args
  /\ Bleak.is_connected (BBeltBleak.client st)
     = match Bleak.on_connect dev with
       | Bleak.Done => true
       | Bleak.Fails _ => false
       end.
Proof.
  cbn zeta.
  assert (H0 : BBeltBleak.char_id (connected args dev) = char_id
               /\ Bleak.address (BBeltBleak.client (connected args dev))
                  = mac_address args
               /\ Bleak.is_connected (BBeltBleak.client (connected args dev))
                  = match Bleak.on_connect dev with
                    | Bleak.Done => true
                    | Bleak.Fails _ => false
                    end).
  { unfold connected. destruct (Bleak.on_connect dev); repeat split. }
  unfold after_subscribe.
  destruct (Bleak.on_start_notify dev); cbn [fst]; [|exact H0].
  destruct (loop_frame args inputs (connected args dev))
    as (_ & Hc & _ & Hcl).
  rewrite Hc, Hcl. exact H0.
Qed.



Lemma streaming_well_addressed (args : Args) (out : trace) :
  forallb streaming_event out = true ->
  forallb (well_addressed args) out = true.
Proof.
  induction out as [|ev out IH]; [reflexivity|].
  cbn [forallb]. intros H. apply andb_prop in H. destruct H as [Hev Hout].
  rewrite (IH Hout), andb_true_r.
  destruct ev; try discriminate Hev; reflexivity.
Qed.

Lemma main_well_addressed (args : Args) (dev : Bleak.Device)
    (inputs : list input) :
  forallb (well_addressed args) (trace_of (main args dev inputs)) = true.
Proof.
  rewrite main_run. cbn [trace_of snd forallb well_addressed andb].
  rewrite forallb_app. apply andb_true_intro. split.
  { unfold connect_out. cbn [forallb well_addressed].
    rewrite String.eqb_refl.
    destruct (Bleak.on_connect dev); reflexivity. }
  cbn [forallb well_addressed]. rewrite String.eqb_refl. cbn [andb].
  rewrite !forallb_app. apply andb_true_intro. split.
  { unfold after_subscribe.
    destruct (Bleak.on_start_notify dev); [|reflexivity].
    cbn [snd forallb well_addressed andb]. rewrite forallb_app.
    rewrite streaming_well_addressed
      by (apply loop_stream_events; apply connected_callback).
    reflexivity. }
  apply andb_true_intro. split; [|reflexivity].
  destruct (after_subscribe_frame args dev inputs) as (Hc & Ha & _).
  rewrite terminate_run. cbn zeta. rewrite Hc, Ha.
  destruct (Bleak.on_stop_notify dev), (Bleak.on_disconnect dev);
    cbn [trace_of snd forallb well_addressed];
    rewrite !String.eqb_refl; reflexivity.
Qed.

(** X9.  Throughout a run, connect and disconnect are made on the address
    given on the command line, and the unsubscription names the same
    characteristic as the subscription: the raw-data characteristic
    [0000fed1-...], which is not the heart-rate characteristic that the
    module also defines. *)
Theorem transport_calls_well_addressed
    (args : Args) (dev : Bleak.Device) (inputs : list input) :
  forallb (well_addressed args) (trace_of (main args dev inputs)) = true
  /\ String.eqb char_id CHARACTERISTIC_UUID_HR = false.
Proof. split; [apply main_well_addressed | reflexivity]. Qed.

(** ** Which bytes of a payload matter *)

Lemma be_uint32_at_firstn (data : bytes) (off n : nat) :
  (off + 4 <= n)%nat ->
  be_uint32_at (firstn n data) off = be_uint32_at data off.
Proof.
  intros H. unfold be_uint32_at. rewrite !nth_firstn.
  destruct (Nat.ltb_spec off n); [|lia].
  destruct (Nat.ltb_spec (off + 1) n); [|lia].
  destruct (Nat.ltb_spec (off + 2) n); [|lia].
  destruct (Nat.ltb_spec (off + 3) n); [|lia].
  reflexivity.
Qed.

Lemma len_firstn (data : bytes) (n : nat) :
  len (firstn n data) = Z.min (Z.of_nat n) (len data).
Proof. unfold len. rewrite length_firstn. lia. Qed.

(** X10.  The handler looks at no more than the first 8 bytes of a
    payload of 8 bytes or more, and at no more than the first 4 of any
    other: bytes 4..6 of a 5, 6 or 7 byte payload, any byte from the 9th
    on, and the [sender] argument never change what is stored, printed,
    raised or passed to the callback. *)
Theorem handler_reads_only_a_prefix
    (args : Args) (sender sender' : Z) (data : bytes)
    (self : BBeltBleak.t) :
  BBeltBleak._ble_handler args sender data self
  = BBeltBleak._ble_handler args sender'
      (firstn (if 8 <=? len data then 8 else 4) data) self.
Proof.
  destruct (Z.leb_spec 8 (len data)) as [H8|H8].
  - rewrite (handler_decodes args sender data) by lia.
    rewrite (handler_decodes args sender' (firstn 8 data))
      by (rewrite len_firstn; lia).
    unfold secondary_after. rewrite len_firstn.
    rewrite !be_uint32_at_firstn by lia.
    destruct (Z.leb_spec 8 (len data)); [|lia].
    destruct (Z.leb_spec 8 (Z.min (Z.of_nat 8) (len data))); [|lia].
    reflexivity.
  - destruct (Z.lt_ge_cases (len data) 4) as [H4|H4].
    + rewrite firstn_all2 by (unfold len in H4; lia).
      rewrite !handler_short by exact H4. reflexivity.
    + rewrite (handler_decodes args sender data) by lia.
      rewrite (handler_decodes args sender' (firstn 4 data))
        by (rewrite len_firstn; lia).
      unfold secondary_after. rewrite len_firstn.
      rewrite !be_uint32_at_firstn by lia.
      destruct (Z.leb_spec 8 (len data)); [lia|].
      destruct (Z.leb_spec 8 (Z.min (Z.of_nat 4) (len data))); [lia|].
      reflexivity.
Qed.



(** ** When samples are pushed *)

Lemma main_phases
    (args : Args) (dev : Bleak.Device) (inputs : list input) :
  exists before during after_ : trace,
    trace_of (main args dev inputs)
    = before ++ ClientStartNotify char_id
      :: during ++ ClientStopNotify char_id :: after_
    /\ In (NewStreamOutlet (info_bamp args)) before
    /\ count is_push before = 0%nat
    /\ count is_push after_ = 0%nat
    /\ In (DelOutlet (outlet_bamp args)) after_.
Proof.
  destruct (after_subscribe_frame args dev inputs) as (Hc & _ & _).
  pose (st := fst (after_subscribe args dev inputs)).
  pose (closing := tl (trace_of (BBeltBleak.terminate dev st))).
  assert (Ht : trace_of (BBeltBleak.terminate dev st)
               = ClientStopNotify char_id :: closing
               /\ count is_push closing = 0%nat).
  { unfold closing. rewrite terminate_run. cbn zeta. fold st in Hc.
    rewrite Hc.
    destruct (Bleak.on_stop_notify dev), (Bleak.on_disconnect dev);
      split; reflexivity. }
  destruct Ht as (Ht & Hp).
  exists (NewStreamInfo (info_bamp args) :: NewStreamOutlet (info_bamp args)
          :: connect_out args dev ++ [Print "start notify"]),
    (snd (after_subscribe args dev inputs)),
    (closing ++ [DelOutlet (outlet_bamp args); Print "terminated"]).
  split; [|split; [|split; [|split]]].
  - rewrite main_run. cbn [trace_of snd]. fold st. rewrite Ht.
    cbn [app]. rewrite <- app_assoc. reflexivity.
  - right. left. reflexivity.
  - rewrite !count_cons, count_app. unfold connect_out.
    destruct (Bleak.on_connect dev); reflexivity.
  - rewrite count_app, Hp. reflexivity.
  - apply in_or_app. right. left. reflexivity.
Qed.



(** ** Runs interrupted before the wait *)

Lemma terminate_no_push (dev : Bleak.Device) (self : BBeltBleak.t) :
  count is_push (trace_of (BBeltBleak.terminate dev self)) = 0%nat.
Proof.
  rewrite terminate_run. cbn zeta.
  destruct (Bleak.on_stop_notify dev), (Bleak.on_disconnect dev); reflexivity.
Qed.

Lemma main_at_run (args : Args) (dev : Bleak.Device) (w : arrival) :
  main_at args dev w =
  let r := before_teardown args dev w in
  let t := BBeltBleak.terminate dev (fst r) in
  (Val tt, state_of t,
   NewStreamInfo (info_bamp args) :: NewStreamOutlet (info_bamp args)
   :: snd r ++ trace_of t
   ++ [DelOutlet (outlet_bamp args); Print "terminated"]).
Proof.
  destruct w as [| |inputs].
  - destruct dev as [oc os ot od].
    unfold main_at, before_teardown.
    unfold BBeltBleak.launch_at, BBeltBleak._main_at, BBeltBleak.connect_at,
      BBeltBleak.client_connect_at, during_connect,
      try_finally, try_except, bind, get, emit, print, raise, ret.
    cbn.
    destruct (BBeltBleak.terminate _ (bbelt args)) as [[o' st'] out'] eqn:Et.
    pose proof (terminate_outcome
                  {| Bleak.on_connect := oc; Bleak.on_start_notify := os;
                     Bleak.on_stop_notify := ot; Bleak.on_disconnect := od |}
                  (bbelt args)) as Ho.
    rewrite Et in Ho. cbn in Ho. subst o'. reflexivity.
  - destruct dev as [oc os ot od].
    unfold main_at, before_teardown, connected, connect_out.
    unfold BBeltBleak.launch_at, BBeltBleak._main_at, BBeltBleak.connect_at,
      BBeltBleak.client_connect_at, BBeltBleak.client_start_notify_at,
      during_connect, during_start_notify, BBeltBleak.await,
      try_finally, try_except, bind, get, emit, print, raise, ret,
      BBeltBleak.modify.
    cbn [Bleak.on_connect].
    destruct oc as [|mc]; cbn.
    + destruct (BBeltBleak.terminate _ _) as [[o' st'] out'] eqn:Et.
      pose proof (terminate_outcome
                    {| Bleak.on_connect := Bleak.Done;
                       Bleak.on_start_notify := os;
                       Bleak.on_stop_notify := ot;
                       Bleak.on_disconnect := od |}
                    (BBeltBleak.set_is_connected true (bbelt args))) as Ho.
      rewrite Et in Ho. cbn in Ho. subst o'. reflexivity.
    + destruct (BBeltBleak.terminate _ _) as [[o' st'] out'] eqn:Et.
      pose proof (terminate_outcome
                    {| Bleak.on_connect := Bleak.Fails mc;
                       Bleak.on_start_notify := os;
                       Bleak.on_stop_notify := ot;
                       Bleak.on_disconnect := od |}
                    (bbelt args)) as Ho.
      rewrite Et in Ho. cbn in Ho. subst o'. reflexivity.
  - change (main_at args dev (InWait inputs)) with (main args dev inputs).
    rewrite main_run. unfold before_teardown. cbn [fst snd].
    rewrite <- app_assoc. reflexivity.
Qed.

Lemma early_run_counts (args : Args) (dev : Bleak.Device) (w : arrival)
    (p : event -> bool) :
  count p (trace_of (main_at args dev w))
  = (count p [NewStreamInfo (info_bamp args); NewStreamOutlet (info_bamp args)]
     + count p (snd (before_teardown args dev w))
     + count p (trace_of (BBeltBleak.terminate dev
                            (fst (before_teardown args dev w))))
     + count p [DelOutlet (outlet_bamp args); Print "terminated"])%nat.
Proof.
  rewrite main_at_run. cbn [trace_of snd].
  change (NewStreamInfo (info_bamp args) :: NewStreamOutlet (info_bamp args)
          :: ?l)
    with ([NewStreamInfo (info_bamp args); NewStreamOutlet (info_bamp args)]
          ++ l).
  rewrite !count_app. change (count p []) with 0%nat. lia.
Qed.

Lemma terminate_no_attempt (dev : Bleak.Device) (self : BBeltBleak.t) :
  count is_connect (trace_of (BBeltBleak.terminate dev self)) = 0%nat
  /\ count is_start_notify (trace_of (BBeltBleak.terminate dev self)) = 0%nat.
Proof.
  rewrite terminate_run. cbn zeta.
  destruct (Bleak.on_stop_notify dev), (Bleak.on_disconnect dev);
    split; reflexivity.
Qed.

(** X6.  Whenever the interrupt arrives, during connect, during the
    subscription or in the wait, a run makes exactly one connect call;
    and it makes exactly one [start_notify] call unless the interrupt
    arrived while connect was awaited, in which case it makes none.  A
    failed connect is neither retried nor a reason to skip the
    subscription. *)
Theorem connect_once_subscribe_unless_interrupted
    (args : Args) (dev : Bleak.Device) (w : arrival) :
  let out := trace_of (main_at args dev w) in
  count is_connect out = 1%nat
  /\ count is_start_notify out = if during_connect w then 0%nat else 1%nat.
Proof.
  cbn zeta. destruct w as [| |inputs].
  - rewrite !early_run_counts.
    destruct (terminate_no_attempt dev
                (fst (before_teardown args dev InConnect))) as (H1 & H2).
    rewrite H1, H2. split; reflexivity.
  - rewrite !early_run_counts.
    destruct (terminate_no_attempt dev
                (fst (before_teardown args dev InStartNotify))) as (H1 & H2).
    rewrite H1, H2. unfold before_teardown, connect_out. cbn [snd].
    rewrite !count_cons, !count_app.
    destruct (Bleak.on_connect dev); split; reflexivity.
  - change (main_at args dev (InWait inputs)) with (main args dev inputs).
    apply main_attempts.
Qed.

(** ** Pushes lie between subscription and unsubscription *)

Lemma count_zero_not_in (p : event -> bool) (ev : event) (out : trace) :
  count p out = 0%nat -> p ev = true -> ~ In ev out.
Proof.
  induction out as [|e out IH]; intros Hc Hp Hin; [exact Hin|].
  rewrite count_cons in Hc. destruct Hin as [->|Hin].
  - rewrite Hp in Hc. discriminate Hc.
  - apply IH; [lia | exact Hp | exact Hin].
Qed.

Lemma app_split_left {A} (l1 l2 a : list A) (x : A) (b : list A) :
  l1 ++ l2 = a ++ x :: b -> ~ In x l1 ->
  exists a', a = l1 ++ a' /\ l2 = a' ++ x :: b.
Proof.
  revert a. induction l1 as [|y l1 IH]; intros a H Hn.
  - exists a. split; [reflexivity | exact H].
  - destruct a as [|a0 a]; cbn in H.
    + injection H as Hy _. exfalso. apply Hn. left. exact Hy.
    + injection H as Hy H. subst a0.
      destruct (IH a H) as (a' & Ha & Hl).
      * intros Hin. apply Hn. right. exact Hin.
      * exists a'. split; [rewrite Ha; reflexivity | exact Hl].
Qed.

Lemma app_split_right {A} (l1 l2 a : list A) (x : A) (b : list A) :
  l1 ++ l2 = a ++ x :: b -> ~ In x l2 ->
  exists b', b = b' ++ l2.
Proof.
  revert a. induction l1 as [|y l1 IH]; intros a H Hn.
  - cbn in H. exfalso. apply Hn. rewrite H. apply in_elt.
  - destruct a as [|a0 a]; cbn in H.
    + injection H as _ H. exists l1. symmetry. exact H.
    + injection H as _ H. exact (IH a H Hn).
Qed.

(** X11.  In every run, whenever the interrupt arrives, each
    [push_sample] comes after the creation of the outlet and the
    [start_notify] call, and before the [stop_notify] call and the
    deletion of the outlet: no sample is pushed on an outlet that does
    not exist, nor outside the subscription. *)
Theorem pushes_lie_within_subscription
    (args : Args) (dev : Bleak.Device) (w : arrival)
    (a b : trace) (o : Lsl.StreamOutlet) (x : list Z) :
  trace_of (main_at args dev w) = a ++ PushSample o x :: b ->
  In (NewStreamOutlet (info_bamp args)) a
  /\ In (ClientStartNotify char_id) a
  /\ In (ClientStopNotify char_id) b
  /\ In (DelOutlet (outlet_bamp args)) b.
Proof.
  intros H.
  assert (Hearly : forall w', w' = InConnect \/ w' = InStartNotify ->
            count is_push (trace_of (main_at args dev w')) = 0%nat).
  { intros w' Hw. rewrite early_run_counts, terminate_no_push.
    destruct Hw as [->| ->]; unfold before_teardown, connect_out; cbn [snd].
    - reflexivity.
    - rewrite !count_cons, !count_app.
      destruct (Bleak.on_connect dev); reflexivity. }
  assert (Hpush : forall w', trace_of (main_at args dev w')
                             = a ++ PushSample o x :: b ->
            count is_push (trace_of (main_at args dev w')) <> 0%nat).
  { intros w' Hw. rewrite Hw, count_app, count_cons. cbn. lia. }
  destruct w as [| |inputs].
  - exfalso. apply (Hpush _ H). apply Hearly. left. reflexivity.
  - exfalso. apply (Hpush _ H). apply Hearly. right. reflexivity.
  - change (main_at args dev (InWait inputs)) with (main args dev inputs) in H.
    destruct (main_phases args dev inputs)
      as (before & during & after_ & Heq & Hnew & Hpb & Hpa & Hdel).
    rewrite Heq in H.
    destruct (app_split_left _ _ _ _ _ H
                (count_zero_not_in is_push (PushSample o x) before Hpb
                   eq_refl))
      as (a' & Ha & Hrest).
    destruct a' as [|e a']; [discriminate Hrest|].
    cbn in Hrest. injection Hrest as He Hrest. subst e.
    assert (Hstop : ~ In (PushSample o x) (ClientStopNotify char_id :: after_)).
    { apply (count_zero_not_in is_push); [|reflexivity].
      rewrite count_cons. exact Hpa. }
    destruct (app_split_right _ _ _ _ _ Hrest Hstop) as (b' & Hb).
    subst a b. repeat split.
    + apply in_or_app. left. exact Hnew.
    + apply in_elt.
    + apply in_elt.
    + apply in_or_app. right. right. exact Hdel.
Qed.

(** The one push of a session that receives [00 00 00 05] and is then
    interrupted. *)
Lemma pushes_lie_within_subscription_witness :
  let dev := Bleak.mkDevice Bleak.Done Bleak.Done Bleak.Done Bleak.Done in
  let w := InWait [Notification 0 [x00; x00; x00; x05]] in
  let out := trace_of (main_at default_args dev w) in
  out = firstn 9 out ++ PushSample (outlet_bamp default_args) [5; 0]
        :: skipn 10 out
  /\ In (ClientStartNotify char_id) (firstn 9 out)
  /\ In (ClientStopNotify char_id) (skipn 10 out).
Proof.
  intros dev w out.
  assert (H : out = firstn 9 out
                    ++ PushSample (outlet_bamp default_args) [5; 0]
                    :: skipn 10 out) by reflexivity.
  split; [exact H|].
  pose proof (pushes_lie_within_subscription default_args dev w
                (firstn 9 out) (skipn 10 out) (outlet_bamp default_args)
                [5; 0] H) as (_ & Hs & Ht & _).
  split; [exact Hs | exact Ht].
Defined.
